(** * go-safe-backup: the capacity-aware backup sessions

    A shallow embedding of the local session (local.go), the S3 session
    (s3.go) and the error values (errors.go) of package [safebackup],
    followed by the properties of the session coordinator.

    Conventions of the embedding.
    - Go's [uint64] and [int64] values are integers in [Z]; the wrap-around
      of every arithmetic operation and conversion is written out.
    - [float64] is IEEE 754 binary64, as [spec_float] with precision 53 and
      maximal exponent 1024.
    - A call to an external collaborator (the operating system, the disk
      usage provider, the cleaning engine, the S3 client) is represented by
      its outcome, which the embedded function receives as an argument and
      consults only where the source makes the call.
    - A goroutine started with [go] is recorded in the session as a task with
      a program counter; running it is a separate function or step. *)

From Stdlib Require Import ZArith String Ascii List Bool Lia.
From Stdlib Require Import Floats.SpecFloat.
From stdpp Require Import base option list gmap strings.

Local Open Scope Z_scope.
Local Open Scope string_scope.

(** ** Machine integers *)

Definition two64 : Z := 2 ^ 64.
Definition two63 : Z := 2 ^ 63.

(** The value of a [uint64] computation: reduction modulo 2^64. *)
Definition wrap_uint64 (z : Z) : Z := z mod two64.

(** The value of an [int64] computation, and of the conversion [int64(x)]
    of a [uint64]: two's complement reduction into [-2^63, 2^63). *)
Definition wrap_int64 (z : Z) : Z := (z + two63) mod two64 - two63.

Definition is_uint64 (z : Z) : Prop := 0 <= z < two64.
Definition is_int64 (z : Z) : Prop := - two63 <= z < two63.

(** ** Errors (errors.go, and the uses of fmt.Errorf) *)

Inductive error : Type :=
  | ErrInvalidConfig
  | ErrBackupFailed
  | ErrCleaningTimeout
  (** an error value made outside the package: by the operating system, the
      disk usage provider, the cleaning engine, the S3 client or a context *)
  | ErrExternal (msg : string)
  (** [fmt.Errorf(format, wrapped)] where [format] has one [%w] verb; a
      string operand printed by [%s] belongs to the message and is not kept *)
  | Errorf_w (format : string) (wrapped : error)
  (** [fmt.Errorf(format, wrapped, shown)] with [%w] for the first operand
      and [%v] for the second *)
  | Errorf_w_v (format : string) (wrapped shown : error).

Inductive sentinel : Type := InvalidConfig | BackupFailed | CleaningTimeout.

(** [errors.Is(e, target)] for the three sentinels of the package: follows
    the chain of [%w] operands. *)
Fixpoint errors_Is (e : error) (target : sentinel) : bool :=
  match e, target with
  | ErrInvalidConfig, InvalidConfig => true
  | ErrBackupFailed, BackupFailed => true
  | ErrCleaningTimeout, CleaningTimeout => true
  | Errorf_w _ w, _ => errors_Is w target
  | Errorf_w_v _ w _, _ => errors_Is w target
  | _, _ => false
  end.

(** The unwrapped root of an error: the value at the end of the [%w] chain. *)
Fixpoint error_root (e : error) : error :=
  match e with
  | Errorf_w _ w => error_root w
  | Errorf_w_v _ w _ => error_root w
  | _ => e
  end.

(** A Go result pair [(value, error)]. *)
Inductive Result (A : Type) : Type :=
  | Ok (a : A)
  | Err (e : error).
Arguments Ok {A} a.
Arguments Err {A} e.

(** The outcome of a call that may panic. *)
Inductive Outcome (A : Type) : Type :=
  | Returns (a : A)
  | Panics (msg : string).
Arguments Returns {A} a.
Arguments Panics {A} msg.

(** ** The external collaborators of the local session *)

(** [cleaner.DiskUsage]: three [uint64] byte counts. *)
Record DiskUsage : Type := mkDiskUsage {
  Total : Z;
  Free : Z;
  Used : Z
}.

Definition float64 : Type := spec_float.

(** [float64(x)] for a [uint64] [x]: rounding to nearest, ties to even. *)
Definition float64_of_uint64 (x : Z) : float64 := binary_normalize 53 1024 x 0 false.
Definition float64_div (x y : float64) : float64 := SFdiv 53 1024 x y.
Definition float64_mul (x y : float64) : float64 := SFmul 53 1024 x y.

(** [cleaner.CleaningConfig], as far as the session reads or writes it.  The
    [DiskInfo] provider it carries is represented by the outcomes of its
    [GetDiskUsage] calls. *)
Record CleaningConfig : Type := mkCleaningConfig {
  MaxUsagePercent : option float64;
  RemoveEmptyDirs : bool
}.

(** [cleaner.CleaningReport]: not interpreted by the session. *)
Record CleaningReport : Type := mkCleaningReport {
  DeletedFiles : Z
}.

(** The cleaning engine [cleaner.CleanBackup(root, config)]. *)
Definition Engine : Type := string -> CleaningConfig -> Result CleaningReport.

(** ** The local session (local.go) *)

Record LocalBackupSessionConfig : Type := mkLocalConfig {
  RootDir : string;
  FreeSpaceThreshold : Z;   (* uint64 *)
  TargetFreeSpace : Z;      (* uint64 *)
  CheckInterval : Z;        (* uint64 *)
  CleaningConfig_ : CleaningConfig
}.

Definition with_CheckInterval (c : LocalBackupSessionConfig) (v : Z) : LocalBackupSessionConfig :=
  mkLocalConfig (RootDir c) (FreeSpaceThreshold c) (TargetFreeSpace c) v (CleaningConfig_ c).

(** A channel of type [chan struct{}] on which nothing is ever sent. *)
Inductive chan_state : Type := ChanNil | ChanOpen | ChanClosed.

(** The builtin [close]. *)
Definition close_chan (c : chan_state) : Outcome chan_state :=
  match c with
  | ChanOpen => Returns ChanClosed
  | ChanClosed => Panics "close of closed channel"
  | ChanNil => Panics "close of nil channel"
  end.

(** The program counter of one cleanup goroutine
    [go func() { defer wg.Done(); performCleaning() }()]:
    the next shared action it will take. *)
Inductive pass_pc : Type :=
  | PcProbe                          (* GetDiskUsage, line 217 *)
  | PcEngine (cfg : CleaningConfig)  (* cleaner.CleanBackup, line 236 *)
  | PcStoreFalse                     (* deferred isCleaningActive.Store(false), line 208 *)
  | PcResetSize                      (* deferred StoreInt64(&accumulatedSize, 0), line 210 *)
  | PcWgDone                         (* deferred wg.Done(), lines 60 and 199 *)
  | PcExited.

Record LocalBackupSession : Type := mkLocalSession {
  config : LocalBackupSessionConfig;
  accumulatedSize : Z;          (* int64, atomic *)
  cleaningMutex : bool;         (* true while locked *)
  isCleaningActive : bool;      (* atomic.Bool *)
  cleaningDone : chan_state;
  wg : Z;                       (* the counter of the sync.WaitGroup *)
  passes : list pass_pc         (* the cleanup goroutines started so far *)
}.

Definition with_accumulatedSize (s : LocalBackupSession) (v : Z) : LocalBackupSession :=
  mkLocalSession (config s) v (cleaningMutex s) (isCleaningActive s) (cleaningDone s) (wg s) (passes s).
Definition with_cleaningMutex (s : LocalBackupSession) (v : bool) : LocalBackupSession :=
  mkLocalSession (config s) (accumulatedSize s) v (isCleaningActive s) (cleaningDone s) (wg s) (passes s).
Definition with_isCleaningActive (s : LocalBackupSession) (v : bool) : LocalBackupSession :=
  mkLocalSession (config s) (accumulatedSize s) (cleaningMutex s) v (cleaningDone s) (wg s) (passes s).
Definition with_cleaningDone (s : LocalBackupSession) (v : chan_state) : LocalBackupSession :=
  mkLocalSession (config s) (accumulatedSize s) (cleaningMutex s) (isCleaningActive s) v (wg s) (passes s).
Definition with_wg (s : LocalBackupSession) (v : Z) : LocalBackupSession :=
  mkLocalSession (config s) (accumulatedSize s) (cleaningMutex s) (isCleaningActive s) (cleaningDone s) v (passes s).
Definition with_passes (s : LocalBackupSession) (v : list pass_pc) : LocalBackupSession :=
  mkLocalSession (config s) (accumulatedSize s) (cleaningMutex s) (isCleaningActive s) (cleaningDone s) (wg s) v.

(** [wg.Add(1)] followed by [go func() { defer wg.Done(); performCleaning() }()]:
    lines 57-62 and 196-201. *)
Definition go_performCleaning (s : LocalBackupSession) : LocalBackupSession :=
  let s := with_wg s (wg s + 1) in
  with_passes s (passes s ++ [PcProbe]).

(** validateLocalConfig, lines 245-263.  The thresholds are unsigned, so
    [<= 0] holds for zero only. *)
Definition validateLocalConfig (config : LocalBackupSessionConfig) : option error :=
  if RootDir config =? EmptyString then
    Some (Errorf_w "%w: root directory is required" ErrInvalidConfig)
  else if (FreeSpaceThreshold config <=? 0)%Z then
    Some (Errorf_w "%w: free space threshold must be positive" ErrInvalidConfig)
  else if (TargetFreeSpace config <=? 0)%Z then
    Some (Errorf_w "%w: target free space must be positive" ErrInvalidConfig)
  else if (TargetFreeSpace config <=? FreeSpaceThreshold config)%Z then
    Some (Errorf_w "%w: target free space must be greater than threshold" ErrInvalidConfig)
  else None.

(** NewLocalBackupSession, lines 27-66.  [mkdir] is the outcome of
    [os.MkdirAll(config.RootDir, 0755)] and [probe] the outcome of the
    initial [GetDiskUsage(config.RootDir)]. *)
Definition NewLocalBackupSession (config : LocalBackupSessionConfig)
    (mkdir : option error) (probe : Result DiskUsage) : Result LocalBackupSession :=
  match validateLocalConfig config with
  | Some err => Err (Errorf_w "invalid config: %w" err)
  | None =>
    let config :=
      if (CheckInterval config =? 0)%Z
      then with_CheckInterval config (1024 * 1024 * 1024)
      else config in
    let session := mkLocalSession config 0 false false ChanOpen 0 [] in
    match mkdir with
    | Some err => Err (Errorf_w "failed to create root directory: %w" err)
    | None =>
      match probe with
      | Err err => Err (Errorf_w "failed to get disk usage: %w" err)
      | Ok diskInfo =>
        if (Free diskInfo <? FreeSpaceThreshold config)%Z then
          let session := with_isCleaningActive session true in
          Ok (go_performCleaning session)
        else Ok session
      end
    end
  end.

(** The target level of lines 222-228: the used space that leaves
    [TargetFreeSpace] free, and its share of the total in percent. *)
Definition targetUsedSpace (s : LocalBackupSession) (diskInfo : DiskUsage) : Z :=
  if (TargetFreeSpace (config s) <? Total diskInfo)%Z
  then wrap_uint64 (Total diskInfo - TargetFreeSpace (config s))
  else 0.

Definition targetUsagePercent (s : LocalBackupSession) (diskInfo : DiskUsage) : float64 :=
  float64_mul
    (float64_div (float64_of_uint64 (targetUsedSpace s diskInfo))
                 (float64_of_uint64 (Total diskInfo)))
    (float64_of_uint64 100).

(** Lines 214-233: the configuration handed to the engine. *)
Definition engineConfig (s : LocalBackupSession) (diskInfo : DiskUsage) : CleaningConfig :=
  let cleaningConfig := CleaningConfig_ (config s) in
  match MaxUsagePercent cleaningConfig with
  | None =>
    mkCleaningConfig (Some (targetUsagePercent s diskInfo)) (RemoveEmptyDirs cleaningConfig)
  | Some _ => cleaningConfig
  end.

(** The deferred function of performCleaning, lines 207-211. *)
Definition performCleaning_deferred (s : LocalBackupSession) : LocalBackupSession :=
  let s := with_isCleaningActive s false in
  with_accumulatedSize s 0.

(** performCleaning, lines 206-242.  [probe] is the outcome of its
    [GetDiskUsage] call.  Besides the session it returns the call made to
    the engine, if any, with the engine's answer. *)
Definition performCleaning (s : LocalBackupSession) (probe : Result DiskUsage)
    (CleanBackup : Engine)
    : LocalBackupSession * option (CleaningConfig * Result CleaningReport) :=
  match probe with
  | Err _ => (performCleaning_deferred s, None)
  | Ok diskInfo =>
    let cleaningConfig := engineConfig s diskInfo in
    match CleanBackup (RootDir (config s)) cleaningConfig with
    | Err err => (performCleaning_deferred s, Some (cleaningConfig, Err err))
    | Ok report => (performCleaning_deferred s, Some (cleaningConfig, Ok report))
    end
  end.

(** checkAndCleanIfNeeded, lines 171-203, run without interference: the
    mutex is free when it is called and free again when it returns.
    [probe] is the outcome of the [GetDiskUsage] call of line 187. *)
Definition checkAndCleanIfNeeded (s : LocalBackupSession) (probe : Result DiskUsage)
    : LocalBackupSession :=
  if isCleaningActive s then s
  else
    let s := with_cleaningMutex s true in
    let unlock (s : LocalBackupSession) := with_cleaningMutex s false in
    if isCleaningActive s then unlock s
    else
      match probe with
      | Err _ => unlock s
      | Ok diskInfo =>
        if (Free diskInfo <? FreeSpaceThreshold (config s))%Z then
          let s := with_isCleaningActive s true in
          unlock (go_performCleaning s)
        else unlock s
      end.

(** The goroutine body [defer wg.Done(); performCleaning()] of the [k]-th
    cleanup goroutine, run from its start to its exit in one go. *)
Definition cleanup_goroutine (s : LocalBackupSession) (k : nat)
    (probe : Result DiskUsage) (CleanBackup : Engine) : LocalBackupSession :=
  match passes s !! k with
  | Some PcProbe =>
    let s := fst (performCleaning s probe CleanBackup) in
    let s := with_wg s (wg s - 1) in
    with_passes s (<[k := PcExited]> (passes s))
  | _ => s
  end.

(** *** The file system seen by Save *)

(** Files are looked up by the path string that the call is given.  Two
    spellings of one path, symbolic links and hard links are outside this
    map, and so are the directories that os.MkdirAll creates: of that call
    only the error is kept. *)

(** [os.FileMode]: the permission bits and the bits of the file type. *)
Definition ModePerm : Z := 511.               (* 0777 *)
Definition ModeDir : Z := 2 ^ 31.
Definition ModeSymlink : Z := 2 ^ 27.
Definition ModeDevice : Z := 2 ^ 26.
Definition ModeNamedPipe : Z := 2 ^ 25.
Definition ModeSocket : Z := 2 ^ 24.
Definition ModeSetuid : Z := 2 ^ 23.
Definition ModeSetgid : Z := 2 ^ 22.
Definition ModeCharDevice : Z := 2 ^ 21.
Definition ModeSticky : Z := 2 ^ 20.
Definition ModeIrregular : Z := 2 ^ 19.

Definition ModeType : Z :=
  Z.lor ModeDir (Z.lor ModeSymlink (Z.lor ModeNamedPipe (Z.lor ModeSocket
    (Z.lor ModeDevice (Z.lor ModeCharDevice ModeIrregular))))).

Definition IsRegular (m : Z) : bool := (Z.land m ModeType =? 0)%Z.

(** The bits that [chmod] sets. *)
Definition chmodBits : Z := Z.lor ModePerm (Z.lor ModeSetuid (Z.lor ModeSetgid ModeSticky)).

Record File : Type := mkFile {
  content : list Byte.byte;
  mode : Z
}.

Record FileInfo : Type := mkFileInfo {
  Size : Z;     (* int64 *)
  Mode : Z
}.

(** What the operating system does to the calls of one Save: for each call
    the error it returns there, if it fails for a reason the file map does
    not show (permissions, a full disk, an I/O error).  [copy_fault] also
    gives the number of bytes written before the failure. *)
Record IO : Type := mkIO {
  umask : Z;
  stat_fault : option error;       (* os.Stat, line 76 *)
  mkdirall_fault : option error;   (* os.MkdirAll, line 90 *)
  open_fault : option error;       (* os.Open, line 136 *)
  create_fault : option error;     (* os.Create, line 144 *)
  copy_fault : option (nat * error);  (* io.Copy, line 152 *)
  remove_fault : option error;     (* os.Remove, line 153 *)
  stat2_fault : option error;      (* os.Stat, line 158 *)
  chmod_fault : option error;      (* destFile.Chmod, line 163 *)
  sync_fault : option error        (* destFile.Sync, line 167 *)
}.

(** [filepath.Join], [filepath.Dir] and [filepath.ToSlash] of Go's standard
    library: the sessions only pass their results on. *)
Class Filepath : Type := mkFilepath {
  filepath_Join : string -> string -> string;
  filepath_Dir : string -> string;
  filepath_ToSlash : string -> string
}.

Definition os_Stat (fault : option error) (fs : gmap string File) (name : string)
    : Result FileInfo :=
  match fault with
  | Some err => Err err
  | None =>
    match fs !! name with
    | Some f => Ok (mkFileInfo (Z.of_nat (length (content f))) (mode f))
    | None => Err (ErrExternal "no such file or directory")
    end
  end.

(** [os.Open(name)] for reading. *)
Definition os_Open (fault : option error) (fs : gmap string File) (name : string)
    : Result unit :=
  match fault with
  | Some err => Err err
  | None =>
    match fs !! name with
    | Some _ => Ok tt
    | None => Err (ErrExternal "no such file or directory")
    end
  end.

(** [os.Create(name)]: truncates an existing file, or creates an empty one
    with mode 0666 before umask. *)
Definition os_Create (io : IO) (fs : gmap string File) (name : string)
    : Result (gmap string File) :=
  match create_fault io with
  | Some err => Err err
  | None =>
    match fs !! name with
    | Some f => Ok (<[name := mkFile [] (mode f)]> fs)
    | None => Ok (<[name := mkFile [] (Z.ldiff 438 (umask io))]> fs)
    end
  end.

(** The bytes of [name] replaced by [bytes]. *)
Definition write_content (fs : gmap string File) (name : string) (bytes : list Byte.byte)
    : gmap string File :=
  match fs !! name with
  | Some f => <[name := mkFile bytes (mode f)]> fs
  | None => fs
  end.

Definition read_content (fs : gmap string File) (name : string) : list Byte.byte :=
  match fs !! name with
  | Some f => content f
  | None => []
  end.

(** [io.Copy(destFile, sourceFile)]: on success the destination holds the
    bytes of the source; on a failure after [n] bytes it holds the first
    [n] of them. *)
Definition io_Copy (io : IO) (fs : gmap string File) (dst src : string)
    : option error * gmap string File :=
  match copy_fault io with
  | Some (n, err) => (Some err, write_content fs dst (take n (read_content fs src)))
  | None => (None, write_content fs dst (read_content fs src))
  end.

(** [os.Remove(name)]. *)
Definition os_Remove (io : IO) (fs : gmap string File) (name : string)
    : option error * gmap string File :=
  match remove_fault io with
  | Some err => (Some err, fs)
  | None =>
    match fs !! name with
    | Some _ => (None, delete name fs)
    | None => (Some (ErrExternal "no such file or directory"), fs)
    end
  end.

(** [destFile.Chmod(m)]. *)
Definition file_Chmod (io : IO) (fs : gmap string File) (name : string) (m : Z)
    : option error * gmap string File :=
  match chmod_fault io with
  | Some err => (Some err, fs)
  | None =>
    match fs !! name with
    | Some f =>
      (None, <[name := mkFile (content f)
                         (Z.lor (Z.ldiff (mode f) chmodBits) (Z.land m chmodBits))]> fs)
    | None => (None, fs)
    end
  end.

(** copyFile, lines 135-168.  The deferred [Close] calls discard their
    errors and change nothing here. *)
Definition copyFile (io : IO) (fs : gmap string File) (src dst : string)
    : option error * gmap string File :=
  match os_Open (open_fault io) fs src with
  | Err err => (Some (Errorf_w "failed to open source file: %w" err), fs)
  | Ok _ =>
    match os_Create io fs dst with
    | Err err => (Some (Errorf_w "failed to create destination file: %w" err), fs)
    | Ok fs =>
      match io_Copy io fs dst src with
      | (Some err, fs) =>
        let fs := snd (os_Remove io fs dst) in
        (Some (Errorf_w "failed to copy file: %w" err), fs)
      | (None, fs) =>
        match os_Stat (stat2_fault io) fs src with
        | Err err => (Some (Errorf_w "failed to stat source file: %w" err), fs)
        | Ok srcInfo =>
          match file_Chmod io fs dst (Mode srcInfo) with
          | (Some err, fs) => (Some (Errorf_w "failed to set file permissions: %w" err), fs)
          | (None, fs) => (sync_fault io, fs)
          end
        end
      end
    end
  end.

(** [atomic.AddInt64(&s.accumulatedSize, delta)]; the new value is the
    [accumulatedSize] of the result. *)
Definition atomic_AddInt64_accumulatedSize (s : LocalBackupSession) (delta : Z)
    : LocalBackupSession :=
  with_accumulatedSize s (wrap_int64 (accumulatedSize s + delta)).

(** Save, lines 69-109, run without interference from other goroutines.
    [probe] is the outcome of the [GetDiskUsage] call that
    checkAndCleanIfNeeded makes if it gets that far. *)
Definition Save `{Filepath} (s : LocalBackupSession) (io : IO) (probe : Result DiskUsage)
    (fs : gmap string File) (localFilePath relativePath : string)
    : option error * LocalBackupSession * gmap string File :=
  if (localFilePath =? EmptyString) || (relativePath =? EmptyString) then
    (Some (Errorf_w "%w: empty file path" ErrInvalidConfig), s, fs)
  else
    match os_Stat (stat_fault io) fs localFilePath with
    | Err err => (Some (Errorf_w "failed to stat source file: %w" err), s, fs)
    | Ok srcInfo =>
      if negb (IsRegular (Mode srcInfo)) then
        (Some (Errorf_w "%w: source is not a regular file" ErrInvalidConfig), s, fs)
      else
        let destPath := filepath_Join (RootDir (config s)) relativePath in
        let destDir := filepath_Dir destPath in
        match mkdirall_fault io with
        | Some err =>
          (Some (Errorf_w "failed to create destination directory: %w" err), s, fs)
        | None =>
          match copyFile io fs localFilePath destPath with
          | (Some err, fs) => (Some (Errorf_w_v "%w: %v" ErrBackupFailed err), s, fs)
          | (None, fs) =>
            let fileSize := Size srcInfo in
            let s := atomic_AddInt64_accumulatedSize s fileSize in
            let newAccumulatedSize := accumulatedSize s in
            if (newAccumulatedSize >=? wrap_int64 (CheckInterval (config s)))%Z
            then (None, checkAndCleanIfNeeded s probe, fs)
            else (None, s, fs)
          end
        end
    end.

(** What a call of WaitForCompletion can do in a given state. *)
Inductive WaitOutcome : Type :=
  | WaitReturns (e : option error)
  | WaitBlocks.

(** WaitForCompletion, lines 112-125, at the moment of its [select].
    [ctx] is [ctx.Err()]: [None] while the context is live.  The channel
    [done] is ready once [wg.Wait()] has returned, that is once the counter
    is zero.  When both cases are ready Go picks one of them: [pick_done]
    says which. *)
Definition WaitForCompletion (s : LocalBackupSession) (ctx : option error)
    (pick_done : bool) : WaitOutcome :=
  match ctx, (wg s =? 0)%Z with
  | Some cerr, true =>
    if pick_done then WaitReturns None
    else WaitReturns (Some (Errorf_w_v "%w: %v" ErrCleaningTimeout cerr))
  | Some cerr, false => WaitReturns (Some (Errorf_w_v "%w: %v" ErrCleaningTimeout cerr))
  | None, true => WaitReturns None
  | None, false => WaitBlocks
  end.

(** Close, lines 128-132. *)
Definition Close (s : LocalBackupSession) : Outcome (option error * LocalBackupSession) :=
  match close_chan (cleaningDone s) with
  | Returns c => Returns (None, with_cleaningDone s c)
  | Panics msg => Panics msg
  end.

(** ** Counting goroutines *)

Definition b2n (b : bool) : nat := if b then 1%nat else 0%nat.

(** The number of elements of [l] that satisfy [f]. *)
Fixpoint count {A : Type} (f : A -> bool) (l : list A) : nat :=
  match l with
  | [] => 0%nat
  | x :: l => ((if f x then 1 else 0) + count f l)%nat
  end.

(** ** The S3 session (s3.go) *)

Module S3.

Record S3BackupSessionConfig : Type := mkS3Config {
  Region : string;
  AccessKeyID : string;
  SecretAccessKey : string;
  SessionToken : string;
  Bucket : string;
  Prefix : string;
  Endpoint : string;
  ACL : string
}.

Definition with_ACL (c : S3BackupSessionConfig) (v : string) : S3BackupSessionConfig :=
  mkS3Config (Region c) (AccessKeyID c) (SecretAccessKey c) (SessionToken c)
             (Bucket c) (Prefix c) (Endpoint c) v.

(** [s3.PutObjectInput] as uploadFile fills it. *)
Record PutObjectInput : Type := mkPutObjectInput {
  input_Bucket : string;
  input_Key : string;
  input_Body : list Byte.byte;
  input_ContentLength : Z;
  input_ACL : option string
}.

(** The program counter of one upload goroutine
    [go func() { defer wg.Done(); _ = uploadFile(...) }()]. *)
Inductive upload_pc : Type :=
  | UploadPending (filePath key : string) (size : Z)
  | UploadExited.

Record S3BackupSession : Type := mkS3Session {
  config : S3BackupSessionConfig;
  wg : Z;                      (* the counter of the sync.WaitGroup *)
  uploads : list upload_pc     (* the upload goroutines started so far *)
}.

Definition validACLs : gmap string bool :=
  list_to_map
    [("private", true); ("public-read", true); ("public-read-write", true);
     ("authenticated-read", true); ("aws-exec-read", true);
     ("bucket-owner-read", true); ("bucket-owner-full-control", true);
     (EmptyString, true)].

(** validateS3Config, lines 169-199. *)
Definition validateS3Config (config : S3BackupSessionConfig) : option error :=
  if Region config =? EmptyString then
    Some (Errorf_w "%w: region is required" ErrInvalidConfig)
  else if Bucket config =? EmptyString then
    Some (Errorf_w "%w: bucket name is required" ErrInvalidConfig)
  else if negb (default false (validACLs !! ACL config)) then
    Some (Errorf_w "%w: invalid ACL value: %s" ErrInvalidConfig)
  else None.

(** NewS3BackupSession, lines 30-82.  [newSession] is the outcome of
    [session.NewSession] and [headBucket] that of [HeadBucket]. *)
Definition NewS3BackupSession (config : S3BackupSessionConfig)
    (newSession headBucket : option error) : Result S3BackupSession :=
  match validateS3Config config with
  | Some err => Err (Errorf_w "invalid config: %w" err)
  | None =>
    let config := if ACL config =? EmptyString then with_ACL config "private" else config in
    match newSession with
    | Some err => Err (Errorf_w "failed to create AWS session: %w" err)
    | None =>
      match headBucket with
      | Some err => Err (Errorf_w "failed to access bucket %s: %w" err)
      | None => Ok (mkS3Session config 0 [])
      end
    end
  end.

(** Save, lines 85-112. *)
Definition Save `{Filepath} (s : S3BackupSession) (io : IO) (fs : gmap string File)
    (localFilePath relativePath : string) : option error * S3BackupSession :=
  if (localFilePath =? EmptyString) || (relativePath =? EmptyString) then
    (Some (Errorf_w "%w: empty file path" ErrInvalidConfig), s)
  else
    match os_Stat (stat_fault io) fs localFilePath with
    | Err err => (Some (Errorf_w "failed to stat file: %w" err), s)
    | Ok fileInfo =>
      if negb (IsRegular (Mode fileInfo)) then
        (Some (Errorf_w "%w: source is not a regular file" ErrInvalidConfig), s)
      else
        let key := filepath_ToSlash (filepath_Join (Prefix (config s)) relativePath) in
        let s := mkS3Session (config s) (wg s + 1) (uploads s) in
        let s := mkS3Session (config s) (wg s)
                   (uploads s ++ [UploadPending localFilePath key (Size fileInfo)]) in
        (None, s)
    end.

(** uploadFile, lines 115-144.  [PutObject] is the S3 client: it answers
    the request with an error or with success. *)
Definition uploadFile (s : S3BackupSession) (io : IO) (fs : gmap string File)
    (PutObject : PutObjectInput -> option error) (filePath key : string) (size : Z)
    : option error :=
  match os_Open (open_fault io) fs filePath with
  | Err err => Some (Errorf_w "failed to open file: %w" err)
  | Ok _ =>
    let input := mkPutObjectInput (Bucket (config s)) key (read_content fs filePath) size None in
    let input :=
      if negb (ACL (config s) =? EmptyString)
      then mkPutObjectInput (input_Bucket input) (input_Key input) (input_Body input)
                            (input_ContentLength input) (Some (ACL (config s)))
      else input in
    match PutObject input with
    | Some err => Some (Errorf_w_v "%w: failed to upload to S3: %v" ErrBackupFailed err)
    | None => None
    end
  end.

(** The body of the [k]-th upload goroutine, lines 106-109, run from its
    start to its exit: the result of uploadFile is assigned to [_]. *)
Definition upload_goroutine (s : S3BackupSession) (k : nat) (io : IO)
    (fs : gmap string File) (PutObject : PutObjectInput -> option error)
    : S3BackupSession :=
  match uploads s !! k with
  | Some (UploadPending filePath key size) =>
    let _ := uploadFile s io fs PutObject filePath key size in
    mkS3Session (config s) (wg s - 1) (<[k := UploadExited]> (uploads s))
  | _ => s
  end.

(** The upload goroutines run one after the other, in the order [ks], each
    against its own state of the system and of the S3 client. *)
Fixpoint run_uploads (s : S3BackupSession)
    (ks : list (nat * IO * gmap string File * (PutObjectInput -> option error)))
    : S3BackupSession :=
  match ks with
  | [] => s
  | (k, io, fs, PutObject) :: ks => run_uploads (upload_goroutine s k io fs PutObject) ks
  end.

Definition upload_pending (u : upload_pc) : bool :=
  match u with
  | UploadPending _ _ _ => true
  | UploadExited => false
  end.

(** WaitForCompletion, lines 147-160, at the moment of its [select]; see
    the local session for the arguments. *)
Definition WaitForCompletion (s : S3BackupSession) (ctx : option error)
    (pick_done : bool) : WaitOutcome :=
  match ctx, (wg s =? 0)%Z with
  | Some cerr, true =>
    if pick_done then WaitReturns None
    else WaitReturns (Some (Errorf_w "upload timeout: %w" cerr))
  | Some cerr, false => WaitReturns (Some (Errorf_w "upload timeout: %w" cerr))
  | None, true => WaitReturns None
  | None, false => WaitBlocks
  end.

(** Close, lines 163-166. *)
Definition Close (s : S3BackupSession) : option error * S3BackupSession := (None, s).

End S3.

(** ** Concurrent Save calls on one local session

    The shared fields of a session are read and written by atomic
    operations and under the mutex only, and Go's atomics are sequentially
    consistent, so an execution is an interleaving of the shared actions of
    the goroutines.  A saver is a caller-side goroutine that calls Save
    again and again; between two shared actions it does its private work
    (validation, copying the file). *)

Module Interleaving.

(** Where a saver is: the next shared action it will take. *)
Inductive saver_pc : Type :=
  | SvOutside      (* before the AddInt64 of line 101 of some Save *)
  | SvFastCheck    (* isCleaningActive.Load(), line 173 *)
  | SvLock         (* cleaningMutex.Lock(), line 178 *)
  | SvRecheck      (* isCleaningActive.Load(), line 182 *)
  | SvProbe        (* GetDiskUsage and the comparison, lines 187-194 *)
  | SvStoreTrue    (* isCleaningActive.Store(true), line 195 *)
  | SvWgAdd        (* wg.Add(1), line 196 *)
  | SvGo           (* the go statement, line 198 *)
  | SvUnlock.      (* the deferred cleaningMutex.Unlock(), line 179 *)

Record state : Type := mkState {
  sess : LocalBackupSession;
  savers : list saver_pc
}.

Inductive action : Type :=
  | SaveAdd (i : nat) (fileSize : Z)
  | FastCheck (i : nat)
  | Lock (i : nat)
  | Recheck (i : nat)
  | Probe (i : nat) (r : Result DiskUsage)
  | StoreTrue (i : nat)
  | WgAdd (i : nat)
  | Go (i : nat)
  | Unlock (i : nat)
  | PassProbe (k : nat) (r : Result DiskUsage)
  | PassEngine (k : nat) (r : Result CleaningReport)
  | PassStoreFalse (k : nat)
  | PassResetSize (k : nat)
  | PassWgDone (k : nat).

Definition set_saver (st : state) (i : nat) (pc : saver_pc) : state :=
  mkState (sess st) (<[i := pc]> (savers st)).

Definition set_pass (s : LocalBackupSession) (k : nat) (pc : pass_pc) : LocalBackupSession :=
  with_passes s (<[k := pc]> (passes s)).

(** One shared action of one goroutine; [None] when the goroutine is not
    at that action, or when it is blocked (Lock while the mutex is held). *)
Definition exec (a : action) (st : state) : option state :=
  let s := sess st in
  match a with
  | SaveAdd i fileSize =>
    match savers st !! i with
    | Some SvOutside =>
      let s := atomic_AddInt64_accumulatedSize s fileSize in
      let newAccumulatedSize := accumulatedSize s in
      if (newAccumulatedSize >=? wrap_int64 (CheckInterval (config s)))%Z
      then Some (mkState s (<[i := SvFastCheck]> (savers st)))
      else Some (mkState s (savers st))
    | _ => None
    end
  | FastCheck i =>
    match savers st !! i with
    | Some SvFastCheck =>
      if isCleaningActive s then Some (set_saver st i SvOutside)
      else Some (set_saver st i SvLock)
    | _ => None
    end
  | Lock i =>
    match savers st !! i with
    | Some SvLock =>
      if cleaningMutex s then None
      else Some (mkState (with_cleaningMutex s true) (<[i := SvRecheck]> (savers st)))
    | _ => None
    end
  | Recheck i =>
    match savers st !! i with
    | Some SvRecheck =>
      if isCleaningActive s then Some (set_saver st i SvUnlock)
      else Some (set_saver st i SvProbe)
    | _ => None
    end
  | Probe i r =>
    match savers st !! i with
    | Some SvProbe =>
      match r with
      | Err _ => Some (set_saver st i SvUnlock)
      | Ok diskInfo =>
        if (Free diskInfo <? FreeSpaceThreshold (config s))%Z
        then Some (set_saver st i SvStoreTrue)
        else Some (set_saver st i SvUnlock)
      end
    | _ => None
    end
  | StoreTrue i =>
    match savers st !! i with
    | Some SvStoreTrue =>
      Some (mkState (with_isCleaningActive s true) (<[i := SvWgAdd]> (savers st)))
    | _ => None
    end
  | WgAdd i =>
    match savers st !! i with
    | Some SvWgAdd => Some (mkState (with_wg s (wg s + 1)) (<[i := SvGo]> (savers st)))
    | _ => None
    end
  | Go i =>
    match savers st !! i with
    | Some SvGo =>
      Some (mkState (with_passes s (passes s ++ [PcProbe])) (<[i := SvUnlock]> (savers st)))
    | _ => None
    end
  | Unlock i =>
    match savers st !! i with
    | Some SvUnlock =>
      Some (mkState (with_cleaningMutex s false) (<[i := SvOutside]> (savers st)))
    | _ => None
    end
  | PassProbe k r =>
    match passes s !! k with
    | Some PcProbe =>
      match r with
      | Err _ => Some (mkState (set_pass s k PcStoreFalse) (savers st))
      | Ok diskInfo => Some (mkState (set_pass s k (PcEngine (engineConfig s diskInfo))) (savers st))
      end
    | _ => None
    end
  | PassEngine k r =>
    match passes s !! k with
    | Some (PcEngine _) => Some (mkState (set_pass s k PcStoreFalse) (savers st))
    | _ => None
    end
  | PassStoreFalse k =>
    match passes s !! k with
    | Some PcStoreFalse =>
      Some (mkState (set_pass (with_isCleaningActive s false) k PcResetSize) (savers st))
    | _ => None
    end
  | PassResetSize k =>
    match passes s !! k with
    | Some PcResetSize =>
      Some (mkState (set_pass (with_accumulatedSize s 0) k PcWgDone) (savers st))
    | _ => None
    end
  | PassWgDone k =>
    match passes s !! k with
    | Some PcWgDone => Some (mkState (set_pass (with_wg s (wg s - 1)) k PcExited) (savers st))
    | _ => None
    end
  end.

(** A schedule, executed from left to right. *)
Fixpoint run (acts : list action) (st : state) : option state :=
  match acts with
  | [] => Some st
  | a :: acts =>
    match exec a st with
    | Some st => run acts st
    | None => None
    end
  end.

(** The session as its constructor returns it, shared by [n] savers. *)
Definition init (s : LocalBackupSession) (n : nat) : state :=
  mkState s (replicate n SvOutside).

Definition reachable (s : LocalBackupSession) (n : nat) (st : state) : Prop :=
  exists acts, run acts (init s n) = Some st.

(** The shared actions of saver [i] from the fast check to the return of
    checkAndCleanIfNeeded, when no other goroutine moves in between. *)
Definition saver_alone (s : LocalBackupSession) (i : nat) (probe : Result DiskUsage)
    : list action :=
  if isCleaningActive s then [FastCheck i]
  else
    match probe with
    | Err _ => [FastCheck i; Lock i; Recheck i; Probe i probe; Unlock i]
    | Ok diskInfo =>
      if (Free diskInfo <? FreeSpaceThreshold (config s))%Z
      then [FastCheck i; Lock i; Recheck i; Probe i probe;
            StoreTrue i; WgAdd i; Go i; Unlock i]
      else [FastCheck i; Lock i; Recheck i; Probe i probe; Unlock i]
    end.

(** The shared actions of cleanup goroutine [k] from its start to its
    return. *)
Definition pass_alone (s : LocalBackupSession) (k : nat) (probe : Result DiskUsage)
    (CleanBackup : Engine) : list action :=
  match probe with
  | Err _ => [PassProbe k probe; PassStoreFalse k; PassResetSize k; PassWgDone k]
  | Ok diskInfo =>
    [PassProbe k probe;
     PassEngine k (CleanBackup (RootDir (config s)) (engineConfig s diskInfo));
     PassStoreFalse k; PassResetSize k; PassWgDone k]
  end.

(** A cleanup pass is in the active state from its dispatch until it has
    stored [false] into [isCleaningActive]. *)
Definition pass_active (pc : pass_pc) : bool :=
  match pc with
  | PcProbe | PcEngine _ | PcStoreFalse => true
  | _ => false
  end.

(** A cleanup goroutine that has not returned yet. *)
Definition pass_live (pc : pass_pc) : bool :=
  match pc with
  | PcExited => false
  | _ => true
  end.

(** A saver that is dispatching a pass. *)
Definition dispatching (pc : saver_pc) : bool :=
  match pc with
  | SvStoreTrue | SvWgAdd | SvGo => true
  | _ => false
  end.

Definition active_passes (st : state) : nat := count pass_active (passes (sess st)).
Definition live_passes (st : state) : nat := count pass_live (passes (sess st)).

(** The positions of a saver that holds the mutex, in three groups: it has
    seen the flag down and not raised it yet; it has raised the flag and
    not started the goroutine yet; the others. *)
Definition sv_prestore (pc : saver_pc) : bool :=
  match pc with
  | SvProbe | SvStoreTrue => true
  | _ => false
  end.

Definition sv_pending (pc : saver_pc) : bool :=
  match pc with
  | SvWgAdd | SvGo => true
  | _ => false
  end.

Definition sv_locked_other (pc : saver_pc) : bool :=
  match pc with
  | SvRecheck | SvUnlock => true
  | _ => false
  end.

Definition sv_at_go (pc : saver_pc) : bool :=
  match pc with
  | SvGo => true
  | _ => false
  end.

(** The invariant of the double-checked trigger.
    - exactly the holder of the mutex is at a position under the lock;
    - the flag is up exactly when there is one active pass or one saver
      between raising the flag and starting the goroutine;
    - a saver that has seen the flag down under the lock still sees it down;
    - the counter of the wait group is the number of goroutines that have
      not returned, plus the one being started. *)
Record Inv (st : state) : Prop := mkInv {
  inv_mutex :
    (count sv_prestore (savers st) + count sv_pending (savers st)
     + count sv_locked_other (savers st) = b2n (cleaningMutex (sess st)))%nat;
  inv_flag :
    (active_passes st + count sv_pending (savers st)
     = b2n (isCleaningActive (sess st)))%nat;
  inv_prestore :
    (count sv_prestore (savers st) + b2n (isCleaningActive (sess st)) <= 1)%nat;
  inv_wg :
    wg (sess st) = Z.of_nat (live_passes st + count sv_at_go (savers st))
}.

End Interleaving.

(** ** The words of the specification, for comparison with the code *)

(** "the desired post-cleanup used-space level as total - targetFreeSpace
    (clamped to zero if targetFreeSpace exceeds total capacity)" *)
Definition spec_desiredUsedSpace (total targetFreeSpace : Z) : Z :=
  Z.max 0 (total - targetFreeSpace).

(** "converts this to a target usage percentage" *)
Definition spec_usagePercent (used total : Z) : float64 :=
  float64_mul (float64_div (float64_of_uint64 used) (float64_of_uint64 total))
              (float64_of_uint64 100).

(** The outstanding work of an S3 session: the upload goroutines that have
    not returned. *)
Definition s3_outstanding (s : S3.S3BackupSession) : nat :=
  count S3.upload_pending (S3.uploads s).

(** The counter of the wait group agrees with the outstanding work. *)
Definition s3_consistent (s : S3.S3BackupSession) : Prop :=
  S3.wg s = Z.of_nat (s3_outstanding s).

(** ** Concrete sessions, files and schedules for the examples *)

Definition GiB : Z := 1024 * 1024 * 1024.

(** The configuration of the tests in local_test.go: threshold 10 GiB,
    target 20 GiB, interval 1 GiB. *)
Definition ex_config : LocalBackupSessionConfig :=
  mkLocalConfig "/backup" (10 * GiB) (20 * GiB) GiB (mkCleaningConfig None false).

Definition ex_plenty : DiskUsage := mkDiskUsage (100 * GiB) (50 * GiB) (50 * GiB).
Definition ex_starved : DiskUsage := mkDiskUsage (100 * GiB) (5 * GiB) (95 * GiB).

(** The session that the constructor returns on a disk with plenty of
    room, and the one it returns on a starved disk. *)
Definition ex_session : LocalBackupSession :=
  mkLocalSession ex_config 0 false false ChanOpen 0 [].
Definition ex_session_eager : LocalBackupSession :=
  mkLocalSession ex_config 0 false true ChanOpen 1 [PcProbe].

(** A stand-in for the path functions: joins with a slash and cuts the
    last element off. *)
Fixpoint ex_dir (p : string) : string :=
  match p with
  | EmptyString => EmptyString
  | String c rest =>
    if existsb (Ascii.eqb "/"%char) (list_ascii_of_string rest)
    then String c (ex_dir rest)
    else EmptyString
  end.

Definition ex_filepath : Filepath :=
  mkFilepath (fun a b => a ++ "/" ++ b) ex_dir (fun p => p).

Definition ex_io : IO := mkIO 18 None None None None None None None None None.

Definition ex_bytes : list Byte.byte := [Byte.x68; Byte.x65; Byte.x6c; Byte.x6c; Byte.x6f].

Definition ex_fs : gmap string File := {[ "/data/a.dat" := mkFile ex_bytes 420 ]}.


Definition ex_io_sync_fails : IO :=
  mkIO 18 None None None None None None None None (Some (ErrExternal "input/output error")).


(** Two savers cross the interval together while the disk is starved:
    both pass the fast check, the first one dispatches a pass, the second
    one finds the flag up under the lock. *)
Definition ex_race : list Interleaving.action :=
  [Interleaving.SaveAdd 0 GiB; Interleaving.SaveAdd 1 GiB;
   Interleaving.FastCheck 0; Interleaving.FastCheck 1;
   Interleaving.Lock 0; Interleaving.Recheck 0;
   Interleaving.Probe 0 (Ok ex_starved); Interleaving.StoreTrue 0;
   Interleaving.WgAdd 0; Interleaving.Go 0; Interleaving.Unlock 0;
   Interleaving.Lock 1; Interleaving.Recheck 1; Interleaving.Unlock 1].

Definition ex_race_end : Interleaving.state :=
  Interleaving.mkState
    (mkLocalSession ex_config (2 * GiB) false true ChanOpen 1 [PcProbe])
    [Interleaving.SvOutside; Interleaving.SvOutside].

(** After the race the pass lowers the flag; before it has reset the
    size, the second saver dispatches the next pass. *)
Definition ex_overlap : list Interleaving.action :=
  ex_race ++
  [Interleaving.PassProbe 0 (Err (ErrExternal "statfs failed"));
   Interleaving.PassStoreFalse 0;
   Interleaving.SaveAdd 1 GiB; Interleaving.FastCheck 1;
   Interleaving.Lock 1; Interleaving.Recheck 1;
   Interleaving.Probe 1 (Ok ex_starved); Interleaving.StoreTrue 1;
   Interleaving.WgAdd 1; Interleaving.Go 1].

(** An S3 session as the tests of s3_test.go build it, and a client whose
    PutObject always fails. *)
Definition ex_s3_session : S3.S3BackupSession :=
  S3.mkS3Session (S3.mkS3Config EmptyString EmptyString EmptyString EmptyString "test-bucket" EmptyString EmptyString EmptyString) 0 [].

Definition ex_PutObject_fails : S3.PutObjectInput -> option error :=
  fun _ => Some (ErrExternal "network timeout").

(** ** Further notions used by the properties *)

(** The probe reports less free space than the threshold. *)
Definition capacity_low (s : LocalBackupSession) (probe : Result DiskUsage) : bool :=
  match probe with
  | Ok diskInfo => (Free diskInfo <? FreeSpaceThreshold (config s))%Z
  | Err _ => false
  end.

(** The sum of [f] over [l]. *)
Fixpoint total {A : Type} (f : A -> nat) (l : list A) : nat :=
  match l with
  | [] => 0%nat
  | x :: l => (f x + total f l)%nat
  end.

(** The shared actions a saver has left before it is outside again, counting
    the whole cleanup goroutine it may still start. *)
Definition saver_rank (pc : Interleaving.saver_pc) : nat :=
  match pc with
  | Interleaving.SvOutside => 0
  | Interleaving.SvUnlock => 1
  | Interleaving.SvGo => 8
  | Interleaving.SvWgAdd => 9
  | Interleaving.SvStoreTrue => 10
  | Interleaving.SvProbe => 11
  | Interleaving.SvRecheck => 12
  | Interleaving.SvLock => 13
  | Interleaving.SvFastCheck => 14
  end.

(** The shared actions a cleanup goroutine has left before it returns. *)
Definition pass_rank (pc : pass_pc) : nat :=
  match pc with
  | PcExited => 0
  | PcWgDone => 1
  | PcResetSize => 2
  | PcStoreFalse => 3
  | PcEngine _ => 4
  | PcProbe => 5
  end.

Definition remaining (st : Interleaving.state) : nat :=
  (total saver_rank (Interleaving.savers st)
   + total pass_rank (passes (Interleaving.sess st)))%nat.

Definition is_SaveAdd (a : Interleaving.action) : bool :=
  match a with
  | Interleaving.SaveAdd _ _ => true
  | _ => false
  end.

(** A saver between [Lock] and [Unlock]. *)
Definition sv_locked (pc : Interleaving.saver_pc) : bool :=
  Interleaving.sv_prestore pc || Interleaving.sv_pending pc
  || Interleaving.sv_locked_other pc.

(** The bytes saved by a schedule since the last reset by a cleanup pass,
    starting from [start]. *)
Definition sizes_since_reset (start : Z) (acts : list Interleaving.action) : Z :=
  fold_left (fun z a =>
               match a with
               | Interleaving.SaveAdd _ fileSize => z + fileSize
               | Interleaving.PassResetSize _ => 0
               | _ => z
               end) acts start.

(** The keys of [validACLs] other than the empty string. *)
Definition canned_ACLs : list string :=
  ["private"; "public-read"; "public-read-write"; "authenticated-read";
   "aws-exec-read"; "bucket-owner-read"; "bucket-owner-full-control"].

(** The goroutine that an entry of an upload schedule runs. *)
Definition upload_index
    (x : nat * IO * gmap string File * (S3.PutObjectInput -> option error)) : nat :=
  x.1.1.1.

(** *** More concrete data *)

(** A session that checks the capacity after every byte. *)
Definition ex_config_eager_check : LocalBackupSessionConfig :=
  mkLocalConfig "/backup" (10 * GiB) (20 * GiB) 1 (mkCleaningConfig None false).
Definition ex_session_eager_check : LocalBackupSession :=
  mkLocalSession ex_config_eager_check 0 false false ChanOpen 0 [].

(** A check interval beyond the range of [int64]. *)
Definition ex_config_huge_interval : LocalBackupSessionConfig :=
  mkLocalConfig "/backup" (10 * GiB) (20 * GiB) (2 ^ 63) (mkCleaningConfig None false).
Definition ex_session_huge_interval : LocalBackupSession :=
  mkLocalSession ex_config_huge_interval 0 false false ChanOpen 0 [].

(** A file that already lies under the backup root, and a directory. *)
Definition ex_fs_backup : gmap string File :=
  {[ "/backup/a.dat" := mkFile ex_bytes 420 ]}.
Definition ex_fs_dir : gmap string File :=
  {[ "/data/dir" := mkFile [] (Z.lor ModeDir 493) ]}.

Definition ex_disk_zero : DiskUsage := mkDiskUsage 0 0 0.

Definition ex_s3_config : S3.S3BackupSessionConfig :=
  S3.mkS3Config "us-east-1" "key" "secret" EmptyString "test-bucket" "backup/"
    EmptyString EmptyString.

Definition ex_s3_two_uploads : S3.S3BackupSession :=
  S3.mkS3Session ex_s3_config 2
    [S3.UploadPending "/data/a.dat" "backup/a.dat" 5;
     S3.UploadPending "/data/b.dat" "backup/b.dat" 7].

Definition ex_PutObject_ok : S3.PutObjectInput -> option error := fun _ => None.

(** * Properties *)

(** ** Counting positions in a list of goroutines *)

Lemma count_insert {A : Type} (f : A -> bool) (l : list A) (i : nat) (x y : A) :
  l !! i = Some x ->
  (count f (<[i := y]> l) + b2n (f x)
   = count f l + b2n (f y))%nat.
Proof.
  revert i. induction l as [|z l IH]; intros i Hi.
  - destruct i; discriminate.
  - destruct i as [|i]; simpl in *.
    + injection Hi as ->. unfold b2n. destruct (f x), (f y); lia.
    + specialize (IH i Hi). destruct (f z); lia.
Qed.

Lemma count_app {A : Type} (f : A -> bool) (l1 l2 : list A) :
  count f (l1 ++ l2) = (count f l1 + count f l2)%nat.
Proof.
  induction l1 as [|z l1 IH]; simpl; [reflexivity|]. rewrite IH. lia.
Qed.

Lemma count_replicate {A : Type} (f : A -> bool) (n : nat) (x : A) :
  count f (replicate n x) = (n * b2n (f x))%nat.
Proof.
  induction n as [|n IH]; simpl; [reflexivity|]. rewrite IH.
  unfold b2n. destruct (f x); lia.
Qed.

Lemma count_lookup {A : Type} (f : A -> bool) (l : list A) (i : nat) (x : A) :
  l !! i = Some x -> (b2n (f x) <= count f l)%nat.
Proof.
  revert i. induction l as [|z l IH]; intros i Hi.
  - destruct i; discriminate.
  - destruct i as [|i]; simpl in *.
    + injection Hi as ->. unfold b2n. destruct (f x); lia.
    + specialize (IH i Hi). destruct (f z); lia.
Qed.

(** ** The interleaved actions agree with the functions

    Run without interference, the actions of a saver compose to
    checkAndCleanIfNeeded and those of a cleanup goroutine to
    [cleanup_goroutine], that is to performCleaning followed by
    [wg.Done()]. *)

Section Agreement.
Import Interleaving.

Lemma checkAndCleanIfNeeded_schedule s svs i probe :
  svs !! i = Some SvFastCheck ->
  cleaningMutex s = false ->
  run (saver_alone s i probe) (mkState s svs)
  = Some (mkState (checkAndCleanIfNeeded s probe) (<[i := SvOutside]> svs)).
Proof.
  intros Hi Hfree.
  pose proof (lookup_lt_Some _ _ _ Hi) as Hlen.
  unfold saver_alone, checkAndCleanIfNeeded.
  destruct s as [c a m f d w p]. simpl in *. subst m.
  destruct f.
  - simpl. rewrite Hi. reflexivity.
  - destruct probe as [du|e].
    + destruct (Free du <? FreeSpaceThreshold c)%Z eqn:Hlow.
      * simpl. rewrite Hi. simpl.
        repeat (rewrite ?list_lookup_insert_eq by (rewrite ?length_insert; exact Hlen);
                simpl; rewrite ?Hlow; rewrite ?list_insert_insert_eq).
        reflexivity.
      * simpl. rewrite Hi. simpl.
        repeat (rewrite ?list_lookup_insert_eq by (rewrite ?length_insert; exact Hlen);
                simpl; rewrite ?Hlow; rewrite ?list_insert_insert_eq).
        reflexivity.
    + simpl. rewrite Hi. simpl.
      repeat (rewrite ?list_lookup_insert_eq by (rewrite ?length_insert; exact Hlen);
              simpl; rewrite ?list_insert_insert_eq).
      reflexivity.
Qed.

Lemma cleanup_goroutine_schedule s svs k probe CleanBackup :
  passes s !! k = Some PcProbe ->
  run (pass_alone s k probe CleanBackup) (mkState s svs)
  = Some (mkState (cleanup_goroutine s k probe CleanBackup) svs).
Proof.
  intros Hk.
  pose proof (lookup_lt_Some _ _ _ Hk) as Hlen.
  unfold pass_alone, cleanup_goroutine. rewrite Hk.
  destruct s as [c a m f d w p]. simpl in *.
  destruct probe as [du|e].
  - simpl. rewrite Hk. unfold set_pass. simpl.
    repeat (rewrite ?list_lookup_insert_eq by (rewrite ?length_insert; exact Hlen);
            simpl; rewrite ?list_insert_insert_eq).
    unfold performCleaning. simpl. destruct (CleanBackup _ _); reflexivity.
  - simpl. rewrite Hk. unfold set_pass. simpl.
    repeat (rewrite ?list_lookup_insert_eq by (rewrite ?length_insert; exact Hlen);
            simpl; rewrite ?list_insert_insert_eq).
    reflexivity.
Qed.

End Agreement.

(** ** The invariant of the cleaning trigger *)

Section TriggerInvariant.
Import Interleaving.

(** Collects, for the goroutine that moves, how each count changes. *)
Ltac count_facts :=
  repeat match goal with
  | H : ?l !! ?i = Some ?x |- context [count ?f (<[?i := ?y]> ?l)] =>
    lazymatch goal with
    | _ : (count f (<[i := y]> l) + _ = _)%nat |- _ => fail
    | _ => pose proof (count_insert f l i x y H)
    end
  end;
  try match goal with
  | H : ?l !! ?i = Some ?x |- _ =>
    lazymatch type of x with
    | saver_pc =>
      pose proof (count_lookup sv_prestore l i x H);
      pose proof (count_lookup sv_pending l i x H);
      pose proof (count_lookup sv_locked_other l i x H)
    | pass_pc =>
      pose proof (count_lookup pass_active l i x H)
    end
  end.

Lemma Inv_exec (a : action) (st st' : state) :
  Inv st -> exec a st = Some st' -> Inv st'.
Proof.
  intros [I1 I2 I3 I4] Hexec.
  unfold active_passes, live_passes in *.
  destruct st as [s svs]. simpl in *.
  destruct a; simpl in Hexec;
    match type of Hexec with
    | match ?l !! ?i with _ => _ end = _ =>
      destruct (l !! i) as [pc|] eqn:Hpc; [|discriminate]
    end;
    destruct pc; try discriminate;
    repeat match type of Hexec with
    | (if ?b then _ else _) = _ => destruct b eqn:?
    | match ?r with Ok _ => _ | Err _ => _ end = _ => destruct r
    end;
    try discriminate;
    injection Hexec as <-;
    constructor; unfold active_passes, live_passes, set_pass; simpl;
    rewrite ?count_app; simpl;
    count_facts; unfold b2n in *; simpl in *;
    repeat match goal with
    | H : isCleaningActive _ = _ |- _ => rewrite H in *
    | H : cleaningMutex _ = _ |- _ => rewrite H in *
    end;
    try (destruct (isCleaningActive s)); try (destruct (cleaningMutex s)); lia.
Qed.

Lemma Inv_run (acts : list action) :
  forall st st', Inv st -> run acts st = Some st' -> Inv st'.
Proof.
  induction acts as [|a acts IH]; simpl; intros st st' HI Hrun.
  - injection Hrun as <-. exact HI.
  - destruct (exec a st) as [st1|] eqn:Hexec; [|discriminate].
    eapply IH; [|exact Hrun]. eapply Inv_exec; eauto.
Qed.

Lemma Inv_init cfg mkdir probe s n :
  NewLocalBackupSession cfg mkdir probe = Ok s -> Inv (init s n).
Proof.
  unfold NewLocalBackupSession. intros H.
  destruct (validateLocalConfig cfg); [discriminate|].
  destruct mkdir; [discriminate|].
  destruct probe as [du|]; [|discriminate].
  match type of H with (if ?b then _ else _) = _ => destruct b end;
    injection H as <-; constructor; unfold active_passes, live_passes, init; simpl;
    rewrite !count_replicate; simpl; lia.
Qed.

Lemma Inv_reachable cfg mkdir probe s n st :
  NewLocalBackupSession cfg mkdir probe = Ok s -> reachable s n st -> Inv st.
Proof.
  intros Hnew [acts Hrun]. eapply Inv_run; [|exact Hrun]. eapply Inv_init; eauto.
Qed.

End TriggerInvariant.

(** C2.  Whatever the interleaving of the Save calls of [n] goroutines on
    a session that its constructor returned, at every instant at most one
    cleanup pass is in the active state (dispatched and not yet back to
    idle); while one is, the flag is up; and a saver that is dispatching a
    pass (it has seen the flag down under the lock, or has just raised it)
    does so while no pass is active. *)
Theorem at_most_one_active_pass cfg mkdir probe s n st :
  NewLocalBackupSession cfg mkdir probe = Ok s ->
  Interleaving.reachable s n st ->
  (Interleaving.active_passes st <= 1)%nat /\
  ((1 <= Interleaving.active_passes st)%nat -> isCleaningActive (Interleaving.sess st) = true) /\
  (forall i pc, Interleaving.savers st !! i = Some pc ->
                Interleaving.dispatching pc = true ->
                Interleaving.active_passes st = 0%nat).
Proof.
  intros Hnew Hreach.
  destruct (Inv_reachable _ _ _ _ _ _ Hnew Hreach) as [I1 I2 I3 I4].
  unfold b2n in *.
  split; [|split].
  - destruct (isCleaningActive _); lia.
  - intros Hge. destruct (isCleaningActive _); [reflexivity|lia].
  - intros i pc Hpc Hd.
    pose proof (count_lookup Interleaving.sv_prestore _ _ _ Hpc) as Hp.
    pose proof (count_lookup Interleaving.sv_pending _ _ _ Hpc) as Hq.
    unfold b2n in *.
    destruct pc; try discriminate; simpl in *;
      destruct (isCleaningActive _); lia.
Qed.

Lemma at_most_one_active_pass_witness :
  (Interleaving.active_passes ex_race_end <= 1)%nat /\
  ((1 <= Interleaving.active_passes ex_race_end)%nat ->
   isCleaningActive (Interleaving.sess ex_race_end) = true) /\
  (forall i pc, Interleaving.savers ex_race_end !! i = Some pc ->
                Interleaving.dispatching pc = true ->
                Interleaving.active_passes ex_race_end = 0%nat).
Proof.
  apply (at_most_one_active_pass ex_config None (Ok ex_plenty) ex_session 2 ex_race_end).
  - reflexivity.
  - exists ex_race. reflexivity.
Defined.

(** The active state of a pass ends when it lowers the flag, not when its
    goroutine returns: the next pass can be dispatched while the previous
    goroutine still has its size reset and its [wg.Done()] to do. *)
Lemma pass_tail_overlap :
  exists st, Interleaving.run ex_overlap (Interleaving.init ex_session 2) = Some st /\
             passes (Interleaving.sess st) = [PcResetSize; PcProbe] /\
             Interleaving.live_passes st = 2%nat /\
             Interleaving.active_passes st = 1%nat.
Proof.
  eexists. split; [reflexivity|]. repeat split.
Qed.

(** ** The constructor and the capacity probe *)

Lemma NewLocalBackupSession_valid cfg diskInfo :
  validateLocalConfig cfg = None ->
  NewLocalBackupSession cfg None (Ok diskInfo) =
    let config :=
      if (CheckInterval cfg =? 0)%Z then with_CheckInterval cfg (1024 * 1024 * 1024) else cfg in
    let session := mkLocalSession config 0 false false ChanOpen 0 [] in
    if (Free diskInfo <? FreeSpaceThreshold cfg)%Z
    then Ok (go_performCleaning (with_isCleaningActive session true))
    else Ok session.
Proof.
  intros Hvalid. unfold NewLocalBackupSession. rewrite Hvalid.
  destruct (CheckInterval cfg =? 0)%Z; reflexivity.
Qed.

Lemma NewLocalBackupSession_chan_open cfg mkdir probe s :
  NewLocalBackupSession cfg mkdir probe = Ok s -> cleaningDone s = ChanOpen.
Proof.
  unfold NewLocalBackupSession. intros H.
  destruct (validateLocalConfig cfg); [discriminate|].
  destruct mkdir; [discriminate|].
  destruct probe as [du|]; [|discriminate].
  match type of H with (if ?b then _ else _) = _ => destruct b end;
    injection H as <-; reflexivity.
Qed.

Lemma Save_error_independent `{Filepath} s io fs src rel probe1 probe2 :
  (Save s io probe1 fs src rel).1.1 = (Save s io probe2 fs src rel).1.1.
Proof.
  unfold Save.
  destruct ((src =? EmptyString) || (rel =? EmptyString)); [reflexivity|].
  destruct (os_Stat _ _ _) as [srcInfo|]; [|reflexivity].
  destruct (negb _); [reflexivity|].
  destruct (mkdirall_fault io); [reflexivity|].
  destruct (copyFile _ _ _ _) as [[err|] fs']; [reflexivity|].
  destruct (_ >=? _)%Z; reflexivity.
Qed.

(** C1, as the code has it.  The error of a failing probe never reaches
    the caller of Save: Save returns what it returns with any other probe
    outcome, the capacity check gives up without dispatching anything, and
    a cleanup pass whose probe fails ends without calling the engine.  The
    constructor is different: for a valid configuration whose root
    directory could be created, it returns the error of its initial probe,
    wrapped, and no session. *)
Theorem probe_error_policy `{Filepath} cfg e s io fs src rel probe CleanBackup :
  validateLocalConfig cfg = None ->
  (Save s io (Err e) fs src rel).1.1 = (Save s io probe fs src rel).1.1 /\
  checkAndCleanIfNeeded s (Err e) = (if isCleaningActive s then s else with_cleaningMutex s false) /\
  performCleaning s (Err e) CleanBackup = (performCleaning_deferred s, None) /\
  NewLocalBackupSession cfg None (Err e) = Err (Errorf_w "failed to get disk usage: %w" e).
Proof.
  intros Hvalid. repeat split.
  - apply Save_error_independent.
  - unfold checkAndCleanIfNeeded. destruct s as [c a m f d w p]; simpl.
    destruct f; reflexivity.
  - unfold NewLocalBackupSession. rewrite Hvalid. reflexivity.
Qed.

Lemma probe_error_policy_witness :
  validateLocalConfig ex_config = None /\
  NewLocalBackupSession ex_config None (Err (ErrExternal "statfs failed")) =
    Err (Errorf_w "failed to get disk usage: %w" (ErrExternal "statfs failed")).
Proof.
  split; [reflexivity|].
  apply (@probe_error_policy ex_filepath ex_config (ErrExternal "statfs failed")
           ex_session ex_io ex_fs "/data/a.dat" "a.dat" (Ok ex_plenty)
           (fun _ _ => Ok (mkCleaningReport 0))).
  reflexivity.
Defined.

(** C1 as stated fails at the constructor: with the test configuration and
    a probe that fails, it returns an error and not a session. *)
Lemma construct_failing_probe_counterexample :
  validateLocalConfig ex_config = None /\
  ~ (exists s, NewLocalBackupSession ex_config None (Err (ErrExternal "statfs failed")) = Ok s).
Proof.
  split; [reflexivity|]. intros [s Hs]. discriminate Hs.
Qed.

(** ** The cleanup pass *)

(** C3.  Whatever the session was, and whether the probe of the pass
    fails, the engine fails or the engine succeeds, performCleaning
    returns with the accumulated size at zero and the cleaning state idle. *)
Theorem performCleaning_resets s probe CleanBackup :
  accumulatedSize (performCleaning s probe CleanBackup).1 = 0 /\
  isCleaningActive (performCleaning s probe CleanBackup).1 = false.
Proof.
  unfold performCleaning. destruct probe as [diskInfo|e]; simpl; [|split; reflexivity].
  destruct (CleanBackup _ _); simpl; split; reflexivity.
Qed.

Lemma targetUsedSpace_spec s diskInfo :
  is_uint64 (Total diskInfo) -> is_uint64 (TargetFreeSpace (config s)) ->
  targetUsedSpace s diskInfo
  = spec_desiredUsedSpace (Total diskInfo) (TargetFreeSpace (config s)).
Proof.
  unfold is_uint64, targetUsedSpace, spec_desiredUsedSpace, wrap_uint64, two64.
  intros Ht Hf.
  destruct (Z.ltb_spec (TargetFreeSpace (config s)) (Total diskInfo)).
  - rewrite Z.mod_small by lia. lia.
  - lia.
Qed.

(** C6.  When a pass gets a disk usage snapshot it calls the engine on the
    root directory, once, with a configuration whose maximum usage percent
    is the caller's when the caller gave one, and otherwise the percentage
    that the specification describes: total minus target free space,
    clamped at zero, as a share of the total.  The other options are
    handed on unchanged. *)
Theorem engine_target_percent s diskInfo CleanBackup :
  is_uint64 (Total diskInfo) -> is_uint64 (TargetFreeSpace (config s)) ->
  exists cleaningConfig,
    (performCleaning s (Ok diskInfo) CleanBackup).2
      = Some (cleaningConfig, CleanBackup (RootDir (config s)) cleaningConfig) /\
    MaxUsagePercent cleaningConfig
      = Some (match MaxUsagePercent (CleaningConfig_ (config s)) with
              | Some callerPercent => callerPercent
              | None =>
                spec_usagePercent
                  (spec_desiredUsedSpace (Total diskInfo) (TargetFreeSpace (config s)))
                  (Total diskInfo)
              end) /\
    RemoveEmptyDirs cleaningConfig = RemoveEmptyDirs (CleaningConfig_ (config s)) /\
    (Total diskInfo <= TargetFreeSpace (config s) -> targetUsedSpace s diskInfo = 0).
Proof.
  intros Ht Hf. exists (engineConfig s diskInfo). repeat split.
  - unfold performCleaning. destruct (CleanBackup _ _); reflexivity.
  - unfold engineConfig.
    destruct (MaxUsagePercent (CleaningConfig_ (config s))) eqn:Hmax; simpl.
    + exact Hmax.
    + unfold targetUsagePercent, spec_usagePercent.
      rewrite targetUsedSpace_spec by assumption. reflexivity.
  - unfold engineConfig.
    destruct (MaxUsagePercent (CleaningConfig_ (config s))); reflexivity.
  - intros Hle. unfold targetUsedSpace.
    destruct (Z.ltb_spec (TargetFreeSpace (config s)) (Total diskInfo)); [lia|reflexivity].
Qed.

Lemma engine_target_percent_witness :
  is_uint64 (Total ex_starved) /\
  exists cleaningConfig,
    (performCleaning ex_session_eager (Ok ex_starved) (fun _ _ => Ok (mkCleaningReport 0))).2
      = Some (cleaningConfig, Ok (mkCleaningReport 0)) /\
    MaxUsagePercent cleaningConfig = Some (float64_of_uint64 80).
Proof.
  assert (Ht : is_uint64 (Total ex_starved)) by (unfold is_uint64; vm_compute; split; congruence).
  assert (Hf : is_uint64 (TargetFreeSpace (config ex_session_eager)))
    by (unfold is_uint64; vm_compute; split; congruence).
  split; [exact Ht|].
  destruct (engine_target_percent ex_session_eager ex_starved
              (fun _ _ => Ok (mkCleaningReport 0)) Ht Hf)
    as (cleaningConfig & Hcall & Hmax & _).
  exists cleaningConfig. split; [exact Hcall|].
  rewrite Hmax. vm_compute. reflexivity.
Defined.

(** ** The eager bootstrap and the completion barrier *)

(** C4.  For a valid configuration whose root directory exists or could
    be created and whose initial snapshot shows less free space than the
    threshold, the constructor returns a session with one unit of
    outstanding work, the cleaning state active and one cleanup goroutine
    started.  From then on, whatever the savers do, a WaitForCompletion
    with a live context blocks as long as that goroutine has not returned;
    it returns nil once every started goroutine has returned and none is
    being started; and the goroutine, run to its end, leaves the counter at
    zero whatever the probe and the engine answer. *)
Theorem eager_bootstrap cfg diskInfo :
  validateLocalConfig cfg = None ->
  Free diskInfo < FreeSpaceThreshold cfg ->
  exists s,
    NewLocalBackupSession cfg None (Ok diskInfo) = Ok s /\
    wg s = 1 /\ isCleaningActive s = true /\ passes s = [PcProbe] /\
    (forall n st pc pick,
       Interleaving.reachable s n st ->
       passes (Interleaving.sess st) !! 0%nat = Some pc ->
       Interleaving.pass_live pc = true ->
       WaitForCompletion (Interleaving.sess st) None pick = WaitBlocks) /\
    (forall n st pick,
       Interleaving.reachable s n st ->
       (Interleaving.live_passes st
        + count Interleaving.sv_at_go (Interleaving.savers st) = 0)%nat ->
       WaitForCompletion (Interleaving.sess st) None pick = WaitReturns None) /\
    (forall probe CleanBackup pick,
       WaitForCompletion (cleanup_goroutine s 0 probe CleanBackup) None pick
       = WaitReturns None).
Proof.
  intros Hvalid Hlow.
  pose proof (NewLocalBackupSession_valid cfg diskInfo Hvalid) as Hnew.
  cbv zeta in Hnew.
  apply Z.ltb_lt in Hlow. rewrite Hlow in Hnew.
  eexists. split; [exact Hnew|].
  split; [reflexivity|]. split; [reflexivity|]. split; [reflexivity|].
  split; [|split].
  - intros n st pc pick Hreach Hpc Hlive.
    destruct (Inv_reachable _ _ _ _ _ _ Hnew Hreach) as [_ _ _ I4].
    pose proof (count_lookup Interleaving.pass_live _ _ _ Hpc) as Hc.
    rewrite Hlive in Hc. unfold b2n, Interleaving.live_passes in *.
    unfold WaitForCompletion.
    destruct (Z.eqb_spec (wg (Interleaving.sess st)) 0); [lia|reflexivity].
  - intros n st pick Hreach Hnone.
    destruct (Inv_reachable _ _ _ _ _ _ Hnew Hreach) as [_ _ _ I4].
    unfold WaitForCompletion. rewrite I4, Hnone. reflexivity.
  - intros probe CleanBackup pick. unfold cleanup_goroutine. simpl.
    destruct probe as [du|e]; simpl; [|reflexivity].
    destruct (CleanBackup _ _); reflexivity.
Qed.

Lemma eager_bootstrap_witness :
  validateLocalConfig ex_config = None /\
  Free ex_starved < FreeSpaceThreshold ex_config /\
  exists s,
    NewLocalBackupSession ex_config None (Ok ex_starved) = Ok s /\
    WaitForCompletion s None true = WaitBlocks /\
    WaitForCompletion (cleanup_goroutine s 0 (Err (ErrExternal "statfs failed"))
                         (fun _ _ => Ok (mkCleaningReport 0))) None true
    = WaitReturns None.
Proof.
  assert (Hv : validateLocalConfig ex_config = None) by reflexivity.
  assert (Hl : Free ex_starved < FreeSpaceThreshold ex_config) by reflexivity.
  split; [exact Hv|]. split; [exact Hl|].
  destruct (eager_bootstrap ex_config ex_starved Hv Hl)
    as (s & Hnew & Hwg & _ & Hpasses & Hblocks & _ & Hdone).
  exists s. split; [exact Hnew|]. split; [|apply Hdone].
  apply (Hblocks 0%nat (Interleaving.init s 0) PcProbe true).
  - exists []. reflexivity.
  - simpl. rewrite Hpasses. reflexivity.
  - reflexivity.
Defined.

(** ** Save *)

Lemma Save_reaches_copy `{Filepath} s io probe fs src rel f :
  src <> EmptyString -> rel <> EmptyString ->
  fs !! src = Some f -> IsRegular (mode f) = true ->
  stat_fault io = None -> mkdirall_fault io = None ->
  Save s io probe fs src rel =
    match copyFile io fs src (filepath_Join (RootDir (config s)) rel) with
    | (Some err, fs) => (Some (Errorf_w_v "%w: %v" ErrBackupFailed err), s, fs)
    | (None, fs) =>
      let s := atomic_AddInt64_accumulatedSize s (Z.of_nat (length (content f))) in
      if (accumulatedSize s >=? wrap_int64 (CheckInterval (config s)))%Z
      then (None, checkAndCleanIfNeeded s probe, fs)
      else (None, s, fs)
    end.
Proof.
  intros Hsrc Hrel Hf Hreg Hstat Hmk. unfold Save.
  apply String.eqb_neq in Hsrc. apply String.eqb_neq in Hrel.
  rewrite Hsrc, Hrel. simpl.
  unfold os_Stat. rewrite Hstat, Hf. simpl. rewrite Hreg. simpl.
  rewrite Hmk. reflexivity.
Qed.

(** C5.  A Save with non-empty paths, a source that is a regular file, a
    destination directory that could be created and a copy that succeeds
    returns nil: whatever the probe answers (plenty of room, too little
    room, an error), and whatever the state of the session, so also while
    a cleanup pass is running or after one has failed. *)
Theorem Save_ok_whatever_capacity `{Filepath} s io probe fs src rel f :
  src <> EmptyString -> rel <> EmptyString ->
  fs !! src = Some f -> IsRegular (mode f) = true ->
  stat_fault io = None -> mkdirall_fault io = None ->
  (copyFile io fs src (filepath_Join (RootDir (config s)) rel)).1 = None ->
  (Save s io probe fs src rel).1.1 = None.
Proof.
  intros Hsrc Hrel Hf Hreg Hstat Hmk Hcopy.
  rewrite (Save_reaches_copy s io probe fs src rel f) by assumption.
  destruct (copyFile _ _ _ _) as [[err|] fs']; [discriminate|]. cbv zeta.
  destruct (_ >=? _)%Z; reflexivity.
Qed.

Lemma Save_ok_whatever_capacity_witness :
  (@Save ex_filepath ex_session ex_io (Ok ex_starved) ex_fs "/data/a.dat" "daily/a.dat").1.1 = None /\
  (@Save ex_filepath ex_session_eager ex_io (Err (ErrExternal "statfs failed")) ex_fs
     "/data/a.dat" "daily/a.dat").1.1 = None.
Proof.
  split.
  - apply (@Save_ok_whatever_capacity ex_filepath ex_session ex_io (Ok ex_starved) ex_fs
             "/data/a.dat" "daily/a.dat" (mkFile ex_bytes 420));
      first [reflexivity | discriminate].
  - apply (@Save_ok_whatever_capacity ex_filepath ex_session_eager ex_io
             (Err (ErrExternal "statfs failed")) ex_fs
             "/data/a.dat" "daily/a.dat" (mkFile ex_bytes 420));
      first [reflexivity | discriminate].
Defined.

(** C7.  A Save whose source path or relative path is empty returns the
    input error at once, on the local and on the S3 session: the result
    does not depend on the file system, on the probe or on any other
    outcome, and the session it leaves is the session it found, so neither
    the accumulated size nor the outstanding work has changed. *)
Theorem Save_empty_path `{Filepath} s s3 io probe fs src rel :
  src = EmptyString \/ rel = EmptyString ->
  Save s io probe fs src rel
    = (Some (Errorf_w "%w: empty file path" ErrInvalidConfig), s, fs) /\
  S3.Save s3 io fs src rel
    = (Some (Errorf_w "%w: empty file path" ErrInvalidConfig), s3) /\
  errors_Is (Errorf_w "%w: empty file path" ErrInvalidConfig) InvalidConfig = true.
Proof.
  intros Hempty.
  assert (Hor : (src =? EmptyString) || (rel =? EmptyString) = true).
  { destruct Hempty as [-> | ->]; [reflexivity|]. apply orb_true_r. }
  unfold Save, S3.Save. rewrite Hor. repeat split.
Qed.

Lemma Save_empty_path_witness :
  @Save ex_filepath ex_session ex_io (Ok ex_starved) ex_fs EmptyString "test.dat"
    = (Some (Errorf_w "%w: empty file path" ErrInvalidConfig), ex_session, ex_fs) /\
  @S3.Save ex_filepath ex_s3_session ex_io ex_fs "/data/a.dat" EmptyString
    = (Some (Errorf_w "%w: empty file path" ErrInvalidConfig), ex_s3_session).
Proof.
  split.
  - apply (@Save_empty_path ex_filepath ex_session ex_s3_session ex_io (Ok ex_starved)
             ex_fs EmptyString "test.dat"). left. reflexivity.
  - apply (@Save_empty_path ex_filepath ex_session ex_s3_session ex_io (Ok ex_starved)
             ex_fs "/data/a.dat" EmptyString). right. reflexivity.
Defined.

(** ** copyFile *)

Lemma os_Create_lookup io fs fs1 dst :
  os_Create io fs dst = Ok fs1 ->
  (exists g, fs1 !! dst = Some g /\ content g = []) /\
  (forall p, p <> dst -> fs1 !! p = fs !! p).
Proof.
  unfold os_Create. intros H.
  destruct (create_fault io); [discriminate|].
  destruct (fs !! dst) as [g|] eqn:Hdst; injection H as <-.
  - split; [eexists; split; [apply lookup_insert_eq|reflexivity]|].
    intros p Hp. apply lookup_insert_ne. congruence.
  - split; [eexists; split; [apply lookup_insert_eq|reflexivity]|].
    intros p Hp. apply lookup_insert_ne. congruence.
Qed.

Lemma write_content_lookup (fs : gmap string File) dst bytes g :
  fs !! dst = Some g ->
  write_content fs dst bytes !! dst = Some (mkFile bytes (mode g)) /\
  (forall p, p <> dst -> write_content fs dst bytes !! p = fs !! p).
Proof.
  intros Hg. unfold write_content. rewrite Hg. split.
  - apply lookup_insert_eq.
  - intros p Hp. apply lookup_insert_ne. congruence.
Qed.




(** ** Close *)

(** C10.  Close closes the notification channel without looking at its
    state.  On a session whose channel is open, as the constructor makes it,
    the first Close returns nil and leaves the channel closed, and a second
    Close on that session panics. *)
Theorem second_Close_panics s :
  cleaningDone s = ChanOpen ->
  exists s1,
    Close s = Returns (None, s1) /\
    cleaningDone s1 = ChanClosed /\
    Close s1 = Panics "close of closed channel".
Proof.
  intros Hopen. exists (with_cleaningDone s ChanClosed).
  unfold Close. rewrite Hopen. simpl. repeat split.
Qed.

Lemma second_Close_panics_witness :
  exists s s1,
    NewLocalBackupSession ex_config None (Ok ex_plenty) = Ok s /\
    Close s = Returns (None, s1) /\
    Close s1 = Panics "close of closed channel".
Proof.
  exists ex_session.
  destruct (second_Close_panics ex_session eq_refl) as (s1 & H1 & _ & H2).
  exists s1. split; [reflexivity|]. split; assumption.
Defined.

(** ** The S3 session *)

Lemma upload_goroutine_pending s k io fs PutObject filePath key size :
  S3.uploads s !! k = Some (S3.UploadPending filePath key size) ->
  S3.upload_goroutine s k io fs PutObject
  = S3.mkS3Session (S3.config s) (S3.wg s - 1) (<[k := S3.UploadExited]> (S3.uploads s)).
Proof.
  intros Hk. unfold S3.upload_goroutine. rewrite Hk. reflexivity.
Qed.

Lemma upload_goroutine_consistent s k io fs PutObject :
  s3_consistent s -> s3_consistent (S3.upload_goroutine s k io fs PutObject).
Proof.
  unfold s3_consistent, s3_outstanding. intros Hs.
  unfold S3.upload_goroutine.
  destruct (S3.uploads s !! k) as [[filePath key size|]|] eqn:Hk; try exact Hs.
  simpl.
  pose proof (count_insert S3.upload_pending _ _ _ S3.UploadExited Hk) as Hc.
  unfold b2n in Hc. simpl in Hc. lia.
Qed.

Lemma run_uploads_consistent ks :
  forall s, s3_consistent s -> s3_consistent (S3.run_uploads s ks).
Proof.
  induction ks as [|[[[k io] fs] PutObject] ks IH]; intros s Hs; simpl.
  - exact Hs.
  - apply IH. apply upload_goroutine_consistent. exact Hs.
Qed.

Lemma WaitForCompletion_consistent s pick :
  s3_consistent s ->
  S3.WaitForCompletion s None pick
  = if (s3_outstanding s =? 0)%nat then WaitReturns None else WaitBlocks.
Proof.
  unfold s3_consistent, S3.WaitForCompletion. intros ->.
  destruct (Nat.eqb_spec (s3_outstanding s) 0) as [->|Hne]; [reflexivity|].
  destruct (Z.eqb_spec (Z.of_nat (s3_outstanding s)) 0); [lia|reflexivity].
Qed.

(** C8.  On an S3 session whose counter agrees with its outstanding
    uploads, a Save with valid inputs registers the upload in the wait
    group, starts its goroutine and returns nil, before anything of the
    transfer has happened.  An upload goroutine leaves the session in the
    same state whether its transfer succeeds or fails: the error of
    uploadFile is dropped.  So after any run of upload goroutines, with any
    answers of the S3 client, WaitForCompletion with a live context blocks
    while an upload is outstanding and returns nil once none is. *)
Theorem s3_upload_failures_invisible `{Filepath} s io fs src rel f :
  src <> EmptyString -> rel <> EmptyString ->
  fs !! src = Some f -> IsRegular (mode f) = true ->
  stat_fault io = None ->
  s3_consistent s ->
  let key := filepath_ToSlash (filepath_Join (S3.Prefix (S3.config s)) rel) in
  let s1 :=
    S3.mkS3Session (S3.config s) (S3.wg s + 1)
      (S3.uploads s ++ [S3.UploadPending src key (Z.of_nat (length (content f)))]) in
  S3.Save s io fs src rel = (None, s1) /\
  s3_outstanding s1 = S (s3_outstanding s) /\
  (forall pick, S3.WaitForCompletion s1 None pick = WaitBlocks) /\
  (forall k io' fs' PutObject PutObject',
     S3.upload_goroutine s1 k io' fs' PutObject
     = S3.upload_goroutine s1 k io' fs' PutObject') /\
  (forall ks pick,
     S3.WaitForCompletion (S3.run_uploads s1 ks) None pick
     = if (s3_outstanding (S3.run_uploads s1 ks) =? 0)%nat
       then WaitReturns None else WaitBlocks).
Proof.
  intros Hsrc Hrel Hf Hreg Hstat Hcons key s1.
  assert (Hout : s3_outstanding s1 = S (s3_outstanding s)).
  { unfold s3_outstanding, s1. simpl. rewrite count_app. simpl. lia. }
  assert (Hcons1 : s3_consistent s1).
  { unfold s3_consistent. rewrite Hout. unfold s1. simpl. rewrite Hcons. lia. }
  split; [|split; [exact Hout|split; [|split]]].
  - unfold S3.Save.
    apply String.eqb_neq in Hsrc. apply String.eqb_neq in Hrel.
    rewrite Hsrc, Hrel. simpl.
    unfold os_Stat. rewrite Hstat, Hf. simpl. rewrite Hreg. reflexivity.
  - intros pick. rewrite (WaitForCompletion_consistent s1 pick Hcons1), Hout. reflexivity.
  - intros k io' fs' PutObject PutObject'. unfold S3.upload_goroutine.
    destruct (S3.uploads s1 !! k) as [[filePath key' size|]|]; reflexivity.
  - intros ks pick. apply WaitForCompletion_consistent.
    apply run_uploads_consistent. exact Hcons1.
Qed.

Lemma s3_upload_failures_invisible_witness :
  exists s1,
    @S3.Save ex_filepath ex_s3_session ex_io ex_fs "/data/a.dat" "error.dat" = (None, s1) /\
    S3.uploadFile s1 ex_io ex_fs ex_PutObject_fails "/data/a.dat" "/error.dat" 5
      = Some (Errorf_w_v "%w: failed to upload to S3: %v" ErrBackupFailed
                (ErrExternal "network timeout")) /\
    S3.WaitForCompletion s1 None true = WaitBlocks /\
    S3.WaitForCompletion
      (S3.run_uploads s1 [(0%nat, ex_io, ex_fs, ex_PutObject_fails)]) None true
    = WaitReturns None.
Proof.
  destruct (@s3_upload_failures_invisible ex_filepath ex_s3_session ex_io ex_fs
              "/data/a.dat" "error.dat" (mkFile ex_bytes 420)
              ltac:(discriminate) ltac:(discriminate) eq_refl eq_refl eq_refl eq_refl)
    as (Hsave & _ & Hblocks & _ & Hwait).
  eexists. split; [exact Hsave|]. split; [reflexivity|]. split; [apply Hblocks|].
  rewrite Hwait. reflexivity.
Defined.

(** * Further properties of the sessions *)

(** ** Validation and construction of the local session *)

Lemma validateLocalConfig_error_Is cfg e :
  validateLocalConfig cfg = Some e -> errors_Is e InvalidConfig = true.
Proof.
  unfold validateLocalConfig. intros H.
  repeat match type of H with
         | (if ?b then _ else _) = _ => destruct b
         end;
    try discriminate; injection H as <-; reflexivity.
Qed.

(** X1.  validateLocalConfig accepts a configuration exactly when the root
    directory is not empty and 0 < FreeSpaceThreshold < TargetFreeSpace;
    every rejection is an ErrInvalidConfig. *)
Theorem validateLocalConfig_accepts_iff cfg :
  (validateLocalConfig cfg = None <->
   RootDir cfg <> EmptyString /\
   0 < FreeSpaceThreshold cfg /\ FreeSpaceThreshold cfg < TargetFreeSpace cfg) /\
  (forall e, validateLocalConfig cfg = Some e -> errors_Is e InvalidConfig = true).
Proof.
  split; [|apply validateLocalConfig_error_Is].
  unfold validateLocalConfig.
  destruct (String.eqb_spec (RootDir cfg) EmptyString) as [Hr|Hr].
  { split; [discriminate|tauto]. }
  destruct (Z.leb_spec (FreeSpaceThreshold cfg) 0).
  { split; [discriminate|lia]. }
  destruct (Z.leb_spec (TargetFreeSpace cfg) 0).
  { split; [discriminate|lia]. }
  destruct (Z.leb_spec (TargetFreeSpace cfg) (FreeSpaceThreshold cfg)).
  { split; [discriminate|lia]. }
  split; [intros _; repeat split; [exact Hr|lia|lia]|reflexivity].
Qed.

(** X2.  A session that the constructor returns carries the caller's
    configuration, still valid, with a check interval that is never zero
    (1 GiB when the caller left it at zero); its size counter is zero, its
    mutex free and its channel open; the root directory could be created
    and the probe answered; and a cleanup goroutine has been started, with
    the flag up and the counter at one, exactly when the probe reported
    less free space than the threshold (equal free space starts none). *)
Theorem NewLocalBackupSession_postcondition cfg mkdir probe s :
  NewLocalBackupSession cfg mkdir probe = Ok s ->
  validateLocalConfig (config s) = None /\
  mkdir = None /\
  RootDir (config s) = RootDir cfg /\
  FreeSpaceThreshold (config s) = FreeSpaceThreshold cfg /\
  TargetFreeSpace (config s) = TargetFreeSpace cfg /\
  CleaningConfig_ (config s) = CleaningConfig_ cfg /\
  CheckInterval (config s)
    = (if (CheckInterval cfg =? 0)%Z then 1024 * 1024 * 1024 else CheckInterval cfg) /\
  CheckInterval (config s) <> 0 /\
  accumulatedSize s = 0 /\ cleaningMutex s = false /\ cleaningDone s = ChanOpen /\
  exists diskInfo,
    probe = Ok diskInfo /\
    if (Free diskInfo <? FreeSpaceThreshold cfg)%Z
    then isCleaningActive s = true /\ wg s = 1 /\ passes s = [PcProbe]
    else isCleaningActive s = false /\ wg s = 0 /\ passes s = [].
Proof.
  unfold NewLocalBackupSession. intros H.
  destruct (validateLocalConfig cfg) eqn:Hv; [discriminate|].
  destruct mkdir; [discriminate|].
  destruct probe as [du|]; [|discriminate].
  set (cfg' := if (CheckInterval cfg =? 0)%Z
               then with_CheckInterval cfg (1024 * 1024 * 1024) else cfg) in *.
  assert (Hv' : validateLocalConfig cfg' = None).
  { unfold cfg'. destruct (CheckInterval cfg =? 0)%Z; exact Hv. }
  assert (Hci : CheckInterval cfg'
                = (if (CheckInterval cfg =? 0)%Z then 1024 * 1024 * 1024
                   else CheckInterval cfg)).
  { unfold cfg'. destruct (CheckInterval cfg =? 0)%Z; reflexivity. }
  assert (Hne : CheckInterval cfg' <> 0).
  { rewrite Hci. destruct (Z.eqb_spec (CheckInterval cfg) 0); [lia|assumption]. }
  assert (Hsame : RootDir cfg' = RootDir cfg /\
                  FreeSpaceThreshold cfg' = FreeSpaceThreshold cfg /\
                  TargetFreeSpace cfg' = TargetFreeSpace cfg /\
                  CleaningConfig_ cfg' = CleaningConfig_ cfg).
  { unfold cfg'. destruct (CheckInterval cfg =? 0)%Z; repeat split. }
  destruct Hsame as (H1 & H2 & H3 & H4).
  rewrite H2 in H.
  destruct (Free du <? FreeSpaceThreshold cfg)%Z eqn:Hlow;
    injection H as <-; simpl;
    (split; [exact Hv'|]); (split; [reflexivity|]);
    (split; [exact H1|]); (split; [exact H2|]); (split; [exact H3|]); (split; [exact H4|]);
    (split; [exact Hci|]); (split; [exact Hne|]);
    (split; [reflexivity|]); (split; [reflexivity|]); (split; [reflexivity|]);
    exists du; (split; [reflexivity|]); rewrite Hlow; repeat split.
Qed.

Lemma NewLocalBackupSession_postcondition_witness :
  NewLocalBackupSession ex_config None (Ok ex_starved) = Ok ex_session_eager /\
  CheckInterval (config ex_session_eager) <> 0 /\
  cleaningDone ex_session_eager = ChanOpen.
Proof.
  assert (Hnew : NewLocalBackupSession ex_config None (Ok ex_starved) = Ok ex_session_eager)
    by reflexivity.
  split; [exact Hnew|].
  destruct (NewLocalBackupSession_postcondition _ _ _ _ Hnew)
    as (_ & _ & _ & _ & _ & _ & _ & Hne & _ & _ & Hopen & _).
  split; assumption.
Defined.

(** X3.  The constructor reports its failures in the order of its steps: an
    invalid configuration is "invalid config", an ErrInvalidConfig, whatever
    the file system and the probe would have done; with a valid
    configuration, a root directory that cannot be created is "failed to
    create root directory" whatever the probe would have answered.  In both
    cases no session is returned. *)
Theorem NewLocalBackupSession_error_precedence cfg mkdir probe :
  (forall e, validateLocalConfig cfg = Some e ->
     NewLocalBackupSession cfg mkdir probe = Err (Errorf_w "invalid config: %w" e) /\
     errors_Is (Errorf_w "invalid config: %w" e) InvalidConfig = true) /\
  (forall e, validateLocalConfig cfg = None -> mkdir = Some e ->
     NewLocalBackupSession cfg mkdir probe
     = Err (Errorf_w "failed to create root directory: %w" e)).
Proof.
  split.
  - intros e Hv. unfold NewLocalBackupSession. rewrite Hv. split; [reflexivity|].
    simpl. apply (validateLocalConfig_error_Is cfg e Hv).
  - intros e Hv ->. unfold NewLocalBackupSession. rewrite Hv. reflexivity.
Qed.

(** ** Save on the local session *)

Lemma Save_success `{Filepath} s io probe fs src rel s' fs' :
  Save s io probe fs src rel = (None, s', fs') ->
  exists f,
    fs !! src = Some f /\ IsRegular (mode f) = true /\
    copyFile io fs src (filepath_Join (RootDir (config s)) rel) = (None, fs') /\
    s' = (let s1 := atomic_AddInt64_accumulatedSize s (Z.of_nat (length (content f))) in
          if (accumulatedSize s1 >=? wrap_int64 (CheckInterval (config s1)))%Z
          then checkAndCleanIfNeeded s1 probe else s1).
Proof.
  unfold Save.
  destruct ((src =? EmptyString) || (rel =? EmptyString)); [discriminate|].
  unfold os_Stat. destruct (stat_fault io); [discriminate|].
  destruct (fs !! src) as [f|]; [|discriminate]. simpl.
  destruct (IsRegular (mode f)) eqn:Hreg; [|discriminate]. simpl.
  destruct (mkdirall_fault io); [discriminate|].
  destruct (copyFile _ _ _ _) as [[err|] fs1]; [discriminate|].
  cbv zeta. intros Hs. exists f. split; [reflexivity|]. split; [exact Hreg|].
  destruct (_ >=? _)%Z; injection Hs as <- <-; split; reflexivity.
Qed.

(** X4.  A Save that returns an error leaves the session as it found it:
    nothing is added to the accumulated size, nothing is dispatched. *)
Theorem Save_error_leaves_session `{Filepath} s io probe fs src rel e s' fs' :
  Save s io probe fs src rel = (Some e, s', fs') -> s' = s.
Proof.
  unfold Save.
  destruct ((src =? EmptyString) || (rel =? EmptyString)); [intros [= _ <- _]; reflexivity|].
  destruct (os_Stat _ _ _) as [srcInfo|]; [|intros [= _ <- _]; reflexivity].
  destruct (negb _); [intros [= _ <- _]; reflexivity|].
  destruct (mkdirall_fault io); [intros [= _ <- _]; reflexivity|].
  destruct (copyFile _ _ _ _) as [[err|] fs1]; [intros [= _ <- _]; reflexivity|].
  cbv zeta. destruct (_ >=? _)%Z; discriminate.
Qed.

Lemma Save_error_leaves_session_witness :
  exists e fs',
    @Save ex_filepath ex_session_eager_check ex_io_sync_fails (Ok ex_starved) ex_fs
      "/data/a.dat" "daily/a.dat" = (Some e, ex_session_eager_check, fs').
Proof.
  destruct (@Save ex_filepath ex_session_eager_check ex_io_sync_fails (Ok ex_starved) ex_fs
              "/data/a.dat" "daily/a.dat") as [[[e|] s'] fs'] eqn:Hs.
  - exists e, fs'.
    rewrite (@Save_error_leaves_session ex_filepath _ _ _ _ _ _ e s' fs' Hs). reflexivity.
  - exfalso. vm_compute in Hs. discriminate Hs.
Defined.

(** X5.  With non-empty paths and a working stat, a Save of a source that
    does not exist returns the stat error, which is neither ErrInvalidConfig
    nor ErrBackupFailed, and a Save of a source that is not a regular file
    returns an ErrInvalidConfig; in both cases the session and the file
    system are untouched. *)
Theorem Save_rejects_bad_source `{Filepath} s io probe fs src rel :
  src <> EmptyString -> rel <> EmptyString -> stat_fault io = None ->
  (fs !! src = None ->
   exists e, Save s io probe fs src rel = (Some e, s, fs) /\
             errors_Is e InvalidConfig = false /\ errors_Is e BackupFailed = false) /\
  (forall f, fs !! src = Some f -> IsRegular (mode f) = false ->
   exists e, Save s io probe fs src rel = (Some e, s, fs) /\
             errors_Is e InvalidConfig = true).
Proof.
  intros Hsrc Hrel Hstat.
  apply String.eqb_neq in Hsrc. apply String.eqb_neq in Hrel.
  split.
  - intros Hnone. unfold Save. rewrite Hsrc, Hrel. simpl.
    unfold os_Stat. rewrite Hstat, Hnone. eexists. split; [reflexivity|]. split; reflexivity.
  - intros f Hf Hreg. unfold Save. rewrite Hsrc, Hrel. simpl.
    unfold os_Stat. rewrite Hstat, Hf. simpl. rewrite Hreg. simpl.
    eexists. split; reflexivity.
Qed.

Lemma Save_rejects_bad_source_witness :
  (exists e, @Save ex_filepath ex_session ex_io (Ok ex_plenty) ex_fs
               "/non/existent/file.txt" "test.dat" = (Some e, ex_session, ex_fs) /\
             errors_Is e InvalidConfig = false /\ errors_Is e BackupFailed = false) /\
  (exists e, @Save ex_filepath ex_session ex_io (Ok ex_plenty) ex_fs_dir
               "/data/dir" "test.dat" = (Some e, ex_session, ex_fs_dir) /\
             errors_Is e InvalidConfig = true).
Proof.
  split.
  - apply (proj1 (@Save_rejects_bad_source ex_filepath ex_session ex_io (Ok ex_plenty) ex_fs
             "/non/existent/file.txt" "test.dat"
             ltac:(discriminate) ltac:(discriminate) eq_refl)).
    reflexivity.
  - apply (proj2 (@Save_rejects_bad_source ex_filepath ex_session ex_io (Ok ex_plenty)
             ex_fs_dir "/data/dir" "test.dat"
             ltac:(discriminate) ltac:(discriminate) eq_refl)
           (mkFile [] (Z.lor ModeDir 493))); reflexivity.
Defined.

(** X6.  After a successful Save on a session whose mutex is free, the
    accumulated size is the old one plus the size of the source (in int64
    arithmetic), and a cleanup goroutine has been started, with the flag
    raised and the counter incremented, exactly when that sum has reached
    the check interval, no pass was active and the probe reported less free
    space than the threshold; otherwise nothing else has changed. *)
Theorem Save_trigger `{Filepath} s io probe fs src rel s' fs' :
  cleaningMutex s = false ->
  Save s io probe fs src rel = (None, s', fs') ->
  exists fileInfo,
    os_Stat (stat_fault io) fs src = Ok fileInfo /\
    let newSize := wrap_int64 (accumulatedSize s + Size fileInfo) in
    if (newSize >=? wrap_int64 (CheckInterval (config s)))%Z
       && negb (isCleaningActive s) && capacity_low s probe
    then s' = go_performCleaning
                (with_isCleaningActive (with_accumulatedSize s newSize) true)
    else s' = with_accumulatedSize s newSize.
Proof.
  intros Hfree. unfold Save.
  destruct ((src =? EmptyString) || (rel =? EmptyString)); [discriminate|].
  destruct (os_Stat _ _ _) as [srcInfo|]; [|discriminate].
  destruct (negb _); [discriminate|].
  destruct (mkdirall_fault io); [discriminate|].
  destruct (copyFile _ _ _ _) as [[err|] fs1]; [discriminate|].
  cbv zeta. unfold atomic_AddInt64_accumulatedSize.
  destruct s as [c a m f d w p]. simpl in *. subst m.
  intros Hsave. exists srcInfo. split; [reflexivity|].
  destruct (_ >=? _)%Z; simpl; injection Hsave as <- _.
  - unfold checkAndCleanIfNeeded. simpl. destruct f; simpl; [reflexivity|].
    destruct probe as [du|e]; simpl; [|reflexivity].
    destruct (Free du <? FreeSpaceThreshold c)%Z; reflexivity.
  - reflexivity.
Qed.

Lemma Save_trigger_witness :
  exists s' fs',
    @Save ex_filepath ex_session_eager_check ex_io (Ok ex_starved) ex_fs
      "/data/a.dat" "daily/a.dat" = (None, s', fs') /\
    s' = mkLocalSession ex_config_eager_check 5 false true ChanOpen 1 [PcProbe].
Proof.
  destruct (@Save ex_filepath ex_session_eager_check ex_io (Ok ex_starved) ex_fs
              "/data/a.dat" "daily/a.dat") as [[[e|] s'] fs'] eqn:Hs.
  - exfalso. vm_compute in Hs. discriminate Hs.
  - exists s', fs'. split; [reflexivity|].
    destruct (@Save_trigger ex_filepath ex_session_eager_check ex_io (Ok ex_starved) ex_fs
                "/data/a.dat" "daily/a.dat" s' fs' eq_refl Hs)
      as (fileInfo & Hstat & Hs').
    vm_compute in Hstat. injection Hstat as <-. vm_compute in Hs'. exact Hs'.
Defined.

(** ** What Save does to the files *)

Lemma copyFile_same_path_effect io fs p f fs' :
  fs !! p = Some f ->
  copyFile io fs p p = (None, fs') ->
  exists g, fs' !! p = Some g /\ content g = [].
Proof.
  intros Hf. unfold copyFile, os_Open.
  destruct (open_fault io); [discriminate|]. rewrite Hf.
  destruct (os_Create io fs p) as [fs1|] eqn:Hc; [|discriminate].
  destruct (os_Create_lookup _ _ _ _ Hc) as [(g1 & Hg1 & Hempty) _].
  unfold io_Copy. destruct (copy_fault io) as [[n err]|]; [discriminate|].
  assert (Hread : read_content fs1 p = []).
  { unfold read_content. rewrite Hg1. exact Hempty. }
  rewrite Hread.
  destruct (write_content_lookup fs1 p [] g1 Hg1) as [Hw _].
  unfold os_Stat. destruct (stat2_fault io); [discriminate|].
  rewrite Hw. simpl.
  unfold file_Chmod. destruct (chmod_fault io); [discriminate|].
  rewrite Hw. destruct (sync_fault io); [discriminate|].
  intros [= <-]. eexists. split; [apply lookup_insert_eq|]. reflexivity.
Qed.

(** X8.  A Save whose destination path is the source path itself succeeds
    and leaves that file empty: os.Create truncates it before a byte has
    been read. *)
Theorem Save_onto_itself_truncates `{Filepath} s io probe fs src rel s' fs' :
  Save s io probe fs src rel = (None, s', fs') ->
  filepath_Join (RootDir (config s)) rel = src ->
  exists g, fs' !! src = Some g /\ content g = [].
Proof.
  intros Hsave Heq.
  destruct (Save_success _ _ _ _ _ _ _ _ Hsave) as (f & Hf & _ & Hcopy & _).
  rewrite Heq in Hcopy.
  exact (copyFile_same_path_effect _ _ _ _ _ Hf Hcopy).
Qed.

Lemma Save_onto_itself_truncates_witness :
  exists s' fs' g,
    @Save ex_filepath ex_session ex_io (Ok ex_plenty) ex_fs_backup "/backup/a.dat" "a.dat"
      = (None, s', fs') /\
    accumulatedSize s' = 5 /\
    fs' !! "/backup/a.dat" = Some g /\ content g = [].
Proof.
  destruct (@Save ex_filepath ex_session ex_io (Ok ex_plenty) ex_fs_backup
              "/backup/a.dat" "a.dat") as [[[e|] s'] fs'] eqn:Hs.
  - exfalso. vm_compute in Hs. discriminate Hs.
  - destruct (@Save_onto_itself_truncates ex_filepath ex_session ex_io (Ok ex_plenty)
                ex_fs_backup "/backup/a.dat" "a.dat" s' fs' Hs eq_refl)
      as (g & Hg & Hcontent).
    exists s', fs', g. split; [reflexivity|].
    split; [|split; assumption].
    vm_compute in Hs. injection Hs as <- _. reflexivity.
Defined.

(** X9.  A check interval of 2^63 or more is negative once converted to
    int64, so the comparison of line 104 always succeeds: as long as the
    accumulated size has not overflowed, every successful Save runs the
    capacity check. *)
Theorem Save_huge_interval `{Filepath} s io probe fs src rel s' fs' :
  two63 <= CheckInterval (config s) < two64 ->
  0 <= accumulatedSize s ->
  Save s io probe fs src rel = (None, s', fs') ->
  exists f,
    fs !! src = Some f /\
    (accumulatedSize s + Z.of_nat (length (content f)) < two63 ->
     s' = checkAndCleanIfNeeded
            (with_accumulatedSize s (accumulatedSize s + Z.of_nat (length (content f))))
            probe).
Proof.
  intros Hci Hacc Hsave.
  destruct (Save_success _ _ _ _ _ _ _ _ Hsave) as (f & Hf & _ & _ & Hs').
  exists f. split; [exact Hf|]. intros Hsmall. subst s'. cbv zeta.
  unfold atomic_AddInt64_accumulatedSize.
  assert (Hw : wrap_int64 (accumulatedSize s + Z.of_nat (length (content f)))
               = accumulatedSize s + Z.of_nat (length (content f))).
  { unfold wrap_int64, two63, two64 in *. rewrite Z.mod_small by lia. lia. }
  rewrite Hw. destruct s as [c a m fl d w p]; simpl in *.
  assert (Hneg : wrap_int64 (CheckInterval c) < 0).
  { unfold wrap_int64, two63, two64 in *.
    replace (CheckInterval c + 2 ^ 63) with ((CheckInterval c - 2 ^ 63) + 1 * 2 ^ 64) by lia.
    rewrite Z.mod_add by lia. rewrite Z.mod_small by lia. lia. }
  destruct (Z.geb_spec (a + Z.of_nat (length (content f))) (wrap_int64 (CheckInterval c)));
    [reflexivity|lia].
Qed.

Lemma Save_huge_interval_witness :
  exists s' fs',
    @Save ex_filepath ex_session_huge_interval ex_io (Ok ex_starved) ex_fs
      "/data/a.dat" "daily/a.dat" = (None, s', fs') /\
    isCleaningActive s' = true /\ passes s' = [PcProbe].
Proof.
  destruct (@Save ex_filepath ex_session_huge_interval ex_io (Ok ex_starved) ex_fs
              "/data/a.dat" "daily/a.dat") as [[[e|] s'] fs'] eqn:Hs.
  - exfalso. vm_compute in Hs. discriminate Hs.
  - assert (Hci : two63 <= CheckInterval (config ex_session_huge_interval) < two64)
      by (vm_compute; split; congruence).
    assert (Hacc : 0 <= accumulatedSize ex_session_huge_interval)
      by (vm_compute; congruence).
    destruct (@Save_huge_interval ex_filepath ex_session_huge_interval ex_io (Ok ex_starved)
                ex_fs "/data/a.dat" "daily/a.dat" s' fs' Hci Hacc Hs)
      as (f & Hf & Hs').
    vm_compute in Hf. injection Hf as <-.
    exists s', fs'. split; [reflexivity|].
    rewrite Hs' by (vm_compute; reflexivity). split; reflexivity.
Defined.

(** ** Further invariants of the interleaved executions *)

Lemma total_insert {A : Type} (f : A -> nat) (l : list A) (i : nat) (x y : A) :
  l !! i = Some x -> (total f (<[i := y]> l) + f x = total f l + f y)%nat.
Proof.
  revert i. induction l as [|z l IH]; intros i Hi.
  - destruct i; discriminate.
  - destruct i as [|i]; simpl in *.
    + injection Hi as ->. lia.
    + specialize (IH i Hi). lia.
Qed.

Lemma total_app {A : Type} (f : A -> nat) (l1 l2 : list A) :
  total f (l1 ++ l2) = (total f l1 + total f l2)%nat.
Proof. induction l1 as [|z l1 IH]; simpl; [reflexivity|]. rewrite IH. lia. Qed.

Lemma total_pos {A : Type} (f : A -> nat) (l : list A) :
  (0 < total f l)%nat -> exists i x, l !! i = Some x /\ (0 < f x)%nat.
Proof.
  induction l as [|z l IH]; simpl; [lia|]. intros Hpos.
  destruct (f z) eqn:Hz.
  - destruct IH as (i & x & Hi & Hx); [lia|]. exists (S i), x. split; assumption.
  - exists 0%nat, z. split; [reflexivity|lia].
Qed.

Lemma total_zero {A : Type} (f : A -> nat) (l : list A) (i : nat) (x : A) :
  total f l = 0%nat -> l !! i = Some x -> f x = 0%nat.
Proof.
  revert i. induction l as [|z l IH]; intros i Ht Hi.
  - destruct i; discriminate.
  - simpl in Ht. destruct i as [|i]; simpl in Hi.
    + injection Hi as <-. lia.
    + eapply IH; [lia|exact Hi].
Qed.

Lemma count_pos {A : Type} (f : A -> bool) (l : list A) :
  (0 < count f l)%nat -> exists i x, l !! i = Some x /\ f x = true.
Proof.
  induction l as [|z l IH]; simpl; [lia|]. intros Hpos.
  destruct (f z) eqn:Hz.
  - exists 0%nat, z. split; [reflexivity|exact Hz].
  - destruct IH as (i & x & Hi & Hx); [lia|]. exists (S i), x. split; assumption.
Qed.

Lemma count_le_total {A : Type} (f : A -> bool) (g : A -> nat) (l : list A) :
  (forall x, f x = true -> (0 < g x)%nat) -> (count f l <= total g l)%nat.
Proof.
  intros Hfg. induction l as [|z l IH]; simpl; [lia|].
  destruct (f z) eqn:Hz; [|lia]. specialize (Hfg z Hz). lia.
Qed.

Lemma count_unique {A : Type} (f : A -> bool) (l : list A) (i j : nat) (x y : A) :
  (count f l <= 1)%nat ->
  l !! i = Some x -> f x = true -> l !! j = Some y -> f y = true -> i = j.
Proof.
  revert i j. induction l as [|z l IH]; intros i j Hc Hi Hx Hj Hy.
  - destruct i; discriminate.
  - simpl in Hc. destruct i as [|i], j as [|j]; simpl in *.
    + reflexivity.
    + injection Hi as ->. rewrite Hx in Hc.
      pose proof (count_lookup f _ _ _ Hj) as Hle. rewrite Hy in Hle. simpl in Hle. lia.
    + injection Hj as ->. rewrite Hy in Hc.
      pose proof (count_lookup f _ _ _ Hi) as Hle. rewrite Hx in Hle. simpl in Hle. lia.
    + f_equal. apply IH; try assumption. destruct (f z); lia.
Qed.

Lemma count_sv_locked (l : list Interleaving.saver_pc) :
  count sv_locked l
  = (count Interleaving.sv_prestore l + count Interleaving.sv_pending l
     + count Interleaving.sv_locked_other l)%nat.
Proof.
  induction l as [|z l IH]; simpl; [reflexivity|]. rewrite IH.
  unfold sv_locked. destruct z; simpl; lia.
Qed.

(** X10.  In every reachable state the counter of the wait group is the
    number of cleanup goroutines that have not returned, plus one while a
    saver stands between its [wg.Add(1)] and its [go] statement; so it is
    never negative, and it is zero only when no cleanup goroutine is
    running. *)
Theorem wg_counts_unfinished_goroutines cfg mkdir probe s n st :
  NewLocalBackupSession cfg mkdir probe = Ok s ->
  Interleaving.reachable s n st ->
  wg (Interleaving.sess st)
  = Z.of_nat (Interleaving.live_passes st
              + count Interleaving.sv_at_go (Interleaving.savers st)) /\
  0 <= wg (Interleaving.sess st) /\
  (count Interleaving.sv_at_go (Interleaving.savers st) <= 1)%nat /\
  (wg (Interleaving.sess st) = 0 -> Interleaving.live_passes st = 0%nat).
Proof.
  intros Hnew Hreach.
  destruct (Inv_reachable _ _ _ _ _ _ Hnew Hreach) as [I1 I2 I3 I4].
  split; [exact I4|]. split; [lia|]. split; [|lia].
  assert (Hle : forall l,
            (count Interleaving.sv_at_go l <= count Interleaving.sv_pending l)%nat).
  { induction l as [|z l IH]; simpl; [lia|]. destruct z; simpl; lia. }
  specialize (Hle (Interleaving.savers st)). unfold b2n in *.
  destruct (cleaningMutex _); lia.
Qed.

Lemma wg_counts_unfinished_goroutines_witness :
  wg (Interleaving.sess ex_race_end) = 1 /\
  Interleaving.live_passes ex_race_end = 1%nat.
Proof.
  destruct (wg_counts_unfinished_goroutines ex_config None (Ok ex_plenty) ex_session 2
              ex_race_end eq_refl (ex_intro _ ex_race eq_refl)) as (Hwg & _).
  split; [rewrite Hwg|]; reflexivity.
Defined.

(** X11.  In every reachable state the mutex is locked exactly when some
    saver is between its Lock and its deferred Unlock, and there is never
    more than one such saver: no return path of checkAndCleanIfNeeded leaves
    the mutex locked. *)
Theorem mutex_held_by_one_saver cfg mkdir probe s n st :
  NewLocalBackupSession cfg mkdir probe = Ok s ->
  Interleaving.reachable s n st ->
  (cleaningMutex (Interleaving.sess st) = true <->
   exists i pc, Interleaving.savers st !! i = Some pc /\ sv_locked pc = true) /\
  (forall i j pc pc',
     Interleaving.savers st !! i = Some pc -> sv_locked pc = true ->
     Interleaving.savers st !! j = Some pc' -> sv_locked pc' = true ->
     i = j).
Proof.
  intros Hnew Hreach.
  destruct (Inv_reachable _ _ _ _ _ _ Hnew Hreach) as [I1 _ _ _].
  rewrite <- count_sv_locked in I1. unfold b2n in I1.
  split; [split|].
  - intros Hm. rewrite Hm in I1. apply count_pos. lia.
  - intros (i & pc & Hi & Hpc).
    pose proof (count_lookup sv_locked _ _ _ Hi) as Hle. rewrite Hpc in Hle. simpl in Hle.
    destruct (cleaningMutex _); [reflexivity|lia].
  - intros i j pc pc' Hi Hpc Hj Hpc'.
    apply (count_unique sv_locked (Interleaving.savers st) i j pc pc'); try assumption.
    destruct (cleaningMutex _); lia.
Qed.

Lemma mutex_held_by_one_saver_witness :
  cleaningMutex (Interleaving.sess ex_race_end) = true <->
  exists i pc, Interleaving.savers ex_race_end !! i = Some pc /\ sv_locked pc = true.
Proof.
  exact (proj1 (mutex_held_by_one_saver ex_config None (Ok ex_plenty) ex_session 2
                  ex_race_end eq_refl (ex_intro _ ex_race eq_refl))).
Defined.

Lemma wrap_int64_add a b : wrap_int64 (wrap_int64 a + b) = wrap_int64 (a + b).
Proof.
  unfold wrap_int64.
  replace ((a + two63) mod two64 - two63 + b + two63) with ((a + two63) mod two64 + b) by lia.
  rewrite Zplus_mod_idemp_l. f_equal. f_equal. lia.
Qed.

Lemma accumulatedSize_run acts :
  forall st st' start,
    accumulatedSize (Interleaving.sess st) = wrap_int64 start ->
    Interleaving.run acts st = Some st' ->
    accumulatedSize (Interleaving.sess st') = wrap_int64 (sizes_since_reset start acts).
Proof.
  induction acts as [|a acts IH]; intros st st' start Hacc Hrun; simpl in Hrun.
  - injection Hrun as <-. exact Hacc.
  - destruct (Interleaving.exec a st) as [st1|] eqn:Hexec; [|discriminate].
    unfold sizes_since_reset. simpl. eapply IH; [|exact Hrun].
    destruct st as [s svs]. simpl in *.
    destruct a; simpl in Hexec;
      match type of Hexec with
      | match ?l !! ?i with _ => _ end = _ =>
        destruct (l !! i) as [pc|] eqn:Hpc; [|discriminate]
      end;
      destruct pc; try discriminate;
      repeat match type of Hexec with
      | (if ?b then _ else _) = _ => destruct b eqn:?
      | match ?r with Ok _ => _ | Err _ => _ end = _ => destruct r
      end;
      try discriminate; injection Hexec as <-; simpl; try exact Hacc;
      try (rewrite Hacc; apply wrap_int64_add); reflexivity.
Qed.

(** X12.  No size update is lost: whatever the interleaving, the
    accumulated size is the sum, in int64 arithmetic, of the sizes that the
    Save calls have added since the last reset by a cleanup pass. *)
Theorem no_lost_size_updates cfg mkdir probe s n acts st :
  NewLocalBackupSession cfg mkdir probe = Ok s ->
  Interleaving.run acts (Interleaving.init s n) = Some st ->
  accumulatedSize (Interleaving.sess st) = wrap_int64 (sizes_since_reset 0 acts).
Proof.
  intros Hnew Hrun. eapply accumulatedSize_run; [|exact Hrun].
  simpl. unfold NewLocalBackupSession in Hnew.
  destruct (validateLocalConfig cfg); [discriminate|].
  destruct mkdir; [discriminate|].
  destruct probe as [du|]; [|discriminate].
  match type of Hnew with (if ?b then _ else _) = _ => destruct b end;
    injection Hnew as <-; reflexivity.
Qed.

Lemma no_lost_size_updates_witness :
  accumulatedSize (Interleaving.sess ex_race_end) = 2 * GiB.
Proof.
  rewrite (no_lost_size_updates ex_config None (Ok ex_plenty) ex_session 2 ex_race
             ex_race_end eq_refl eq_refl).
  reflexivity.
Defined.

(** ** No deadlock: the outstanding work can always drain *)

Section Drain.
Import Interleaving.

Lemma pass_progress s svs k pc :
  passes s !! k = Some pc -> (0 < pass_rank pc)%nat ->
  exists a st', is_SaveAdd a = false /\ exec a (mkState s svs) = Some st' /\
                (remaining st' < remaining (mkState s svs))%nat.
Proof.
  intros Hk Hpos. unfold remaining.
  destruct pc; simpl in Hpos; try lia.
  - exists (PassProbe k (Err ErrInvalidConfig)). eexists. split; [reflexivity|].
    simpl. rewrite Hk. split; [reflexivity|]. simpl.
    pose proof (total_insert pass_rank _ _ _ PcStoreFalse Hk). simpl in *. lia.
  - exists (PassEngine k (Err ErrInvalidConfig)). eexists. split; [reflexivity|].
    simpl. rewrite Hk. split; [reflexivity|]. simpl.
    pose proof (total_insert pass_rank _ _ _ PcStoreFalse Hk). simpl in *. lia.
  - exists (PassStoreFalse k). eexists. split; [reflexivity|].
    simpl. rewrite Hk. split; [reflexivity|]. simpl.
    pose proof (total_insert pass_rank _ _ _ PcResetSize Hk). simpl in *. lia.
  - exists (PassResetSize k). eexists. split; [reflexivity|].
    simpl. rewrite Hk. split; [reflexivity|]. simpl.
    pose proof (total_insert pass_rank _ _ _ PcWgDone Hk). simpl in *. lia.
  - exists (PassWgDone k). eexists. split; [reflexivity|].
    simpl. rewrite Hk. split; [reflexivity|]. simpl.
    pose proof (total_insert pass_rank _ _ _ PcExited Hk). simpl in *. lia.
Qed.

Lemma saver_progress s svs i pc :
  svs !! i = Some pc -> (0 < saver_rank pc)%nat ->
  (pc = SvLock -> cleaningMutex s = false) ->
  exists a st', is_SaveAdd a = false /\ exec a (mkState s svs) = Some st' /\
                (remaining st' < remaining (mkState s svs))%nat.
Proof.
  intros Hi Hpos Hlock. unfold remaining.
  destruct pc; simpl in Hpos; try lia.
  - exists (FastCheck i). destruct (isCleaningActive s) eqn:Hf.
    + eexists. split; [reflexivity|]. simpl. rewrite Hi, Hf. split; [reflexivity|]. simpl.
      pose proof (total_insert saver_rank _ _ _ SvOutside Hi). simpl in *. lia.
    + eexists. split; [reflexivity|]. simpl. rewrite Hi, Hf. split; [reflexivity|]. simpl.
      pose proof (total_insert saver_rank _ _ _ SvLock Hi). simpl in *. lia.
  - exists (Lock i). eexists. split; [reflexivity|]. simpl.
    rewrite Hi, (Hlock eq_refl). split; [reflexivity|]. simpl.
    pose proof (total_insert saver_rank _ _ _ SvRecheck Hi). simpl in *. lia.
  - exists (Recheck i). destruct (isCleaningActive s) eqn:Hf.
    + eexists. split; [reflexivity|]. simpl. rewrite Hi, Hf. split; [reflexivity|]. simpl.
      pose proof (total_insert saver_rank _ _ _ SvUnlock Hi). simpl in *. lia.
    + eexists. split; [reflexivity|]. simpl. rewrite Hi, Hf. split; [reflexivity|]. simpl.
      pose proof (total_insert saver_rank _ _ _ SvProbe Hi). simpl in *. lia.
  - exists (Probe i (Err ErrInvalidConfig)). eexists. split; [reflexivity|]. simpl.
    rewrite Hi. split; [reflexivity|]. simpl.
    pose proof (total_insert saver_rank _ _ _ SvUnlock Hi). simpl in *. lia.
  - exists (StoreTrue i). eexists. split; [reflexivity|]. simpl.
    rewrite Hi. split; [reflexivity|]. simpl.
    pose proof (total_insert saver_rank _ _ _ SvWgAdd Hi). simpl in *. lia.
  - exists (WgAdd i). eexists. split; [reflexivity|]. simpl.
    rewrite Hi. split; [reflexivity|]. simpl.
    pose proof (total_insert saver_rank _ _ _ SvGo Hi). simpl in *. lia.
  - exists (Go i). eexists. split; [reflexivity|]. simpl.
    rewrite Hi. split; [reflexivity|]. simpl. rewrite total_app. simpl.
    pose proof (total_insert saver_rank _ _ _ SvUnlock Hi). simpl in *. lia.
  - exists (Unlock i). eexists. split; [reflexivity|]. simpl.
    rewrite Hi. split; [reflexivity|]. simpl.
    pose proof (total_insert saver_rank _ _ _ SvOutside Hi). simpl in *. lia.
Qed.

(** While a goroutine has an action left, one of them can move: the
    holder of the mutex when it is locked, any of them otherwise. *)
Lemma some_goroutine_moves st :
  Inv st -> (0 < remaining st)%nat ->
  exists a st', is_SaveAdd a = false /\ exec a st = Some st' /\
                (remaining st' < remaining st)%nat.
Proof.
  intros [I1 _ _ _] Hpos. destruct st as [s svs]. simpl in *.
  destruct (cleaningMutex s) eqn:Hm.
  - assert (Hc : (0 < count sv_locked svs)%nat).
    { rewrite count_sv_locked. unfold b2n in I1. lia. }
    destruct (count_pos _ _ Hc) as (i & pc & Hi & Hpc).
    apply (saver_progress s svs i pc Hi).
    + destruct pc; simpl in *; try discriminate; lia.
    + intros ->. discriminate.
  - unfold remaining in Hpos. simpl in Hpos.
    destruct (total pass_rank (passes s)) eqn:Hp.
    + destruct (total_pos saver_rank svs) as (i & pc & Hi & Hpc); [lia|].
      apply (saver_progress s svs i pc Hi Hpc). intros _. exact Hm.
    + destruct (total_pos pass_rank (passes s)) as (k & pc & Hk & Hpc); [lia|].
      apply (pass_progress s svs k pc Hk Hpc).
Qed.

Lemma drain_aux (m : nat) :
  forall st, (remaining st <= m)%nat -> Inv st ->
  exists acts st', run acts st = Some st' /\ remaining st' = 0%nat /\
                   forallb (fun a => negb (is_SaveAdd a)) acts = true.
Proof.
  induction m as [|m IH]; intros st Hm HI.
  - exists [], st. split; [reflexivity|]. split; [lia|reflexivity].
  - destruct (Nat.eq_dec (remaining st) 0%nat) as [Hz|Hnz].
    + exists [], st. split; [reflexivity|]. split; [exact Hz|reflexivity].
    + destruct (some_goroutine_moves st HI) as (a & st1 & Ha & Hexec & Hlt); [lia|].
      destruct (IH st1) as (acts & st' & Hrun & Hrem & Hall);
        [lia|eapply Inv_exec; eauto|].
      exists (a :: acts), st'. split; [simpl; rewrite Hexec; exact Hrun|].
      split; [exact Hrem|]. simpl. rewrite Ha. exact Hall.
Qed.

End Drain.

(** X13.  From every reachable state the goroutines can run to the end
    without any further Save: there is a continuation of the schedule, made
    of the remaining actions of the savers and of the cleanup goroutines
    only, after which every saver is outside, every cleanup goroutine has
    returned, the counter is zero, the flag is down, the mutex is free and a
    WaitForCompletion with a live context returns nil.  The lock and the
    flag never leave a goroutine stuck. *)
Theorem outstanding_work_can_drain cfg mkdir probe s n st :
  NewLocalBackupSession cfg mkdir probe = Ok s ->
  Interleaving.reachable s n st ->
  exists acts st',
    Interleaving.run acts st = Some st' /\
    forallb (fun a => negb (is_SaveAdd a)) acts = true /\
    (forall i pc, Interleaving.savers st' !! i = Some pc -> pc = Interleaving.SvOutside) /\
    (forall k pc, passes (Interleaving.sess st') !! k = Some pc -> pc = PcExited) /\
    wg (Interleaving.sess st') = 0 /\
    isCleaningActive (Interleaving.sess st') = false /\
    cleaningMutex (Interleaving.sess st') = false /\
    (forall pick, WaitForCompletion (Interleaving.sess st') None pick = WaitReturns None).
Proof.
  intros Hnew Hreach.
  pose proof (Inv_reachable _ _ _ _ _ _ Hnew Hreach) as HI.
  destruct (drain_aux (remaining st) st (le_n _) HI) as (acts & st' & Hrun & Hrem & Hall).
  exists acts, st'. split; [exact Hrun|]. split; [exact Hall|].
  pose proof (Inv_run _ _ _ HI Hrun) as [I1 I2 I3 I4].
  unfold remaining in Hrem.
  assert (Hsv : total saver_rank (Interleaving.savers st') = 0%nat) by lia.
  assert (Hps : total pass_rank (passes (Interleaving.sess st')) = 0%nat) by lia.
  assert (Hs : forall i pc, Interleaving.savers st' !! i = Some pc ->
                            pc = Interleaving.SvOutside).
  { intros i pc Hi. pose proof (total_zero _ _ _ _ Hsv Hi) as Hz.
    destruct pc; simpl in Hz; try discriminate; reflexivity. }
  assert (Hp : forall k pc, passes (Interleaving.sess st') !! k = Some pc -> pc = PcExited).
  { intros k pc Hk. pose proof (total_zero _ _ _ _ Hps Hk) as Hz.
    destruct pc; simpl in Hz; try discriminate; reflexivity. }
  assert (Hpz : forall f : pass_pc -> bool,
            (forall x, f x = true -> (0 < pass_rank x)%nat) ->
            count f (passes (Interleaving.sess st')) = 0%nat).
  { intros f Hf.
    pose proof (count_le_total f pass_rank (passes (Interleaving.sess st')) Hf). lia. }
  assert (Hsz : forall f : Interleaving.saver_pc -> bool,
            (forall x, f x = true -> (0 < saver_rank x)%nat) ->
            count f (Interleaving.savers st') = 0%nat).
  { intros f Hf.
    pose proof (count_le_total f saver_rank (Interleaving.savers st') Hf). lia. }
  assert (Hlive : Interleaving.live_passes st' = 0%nat).
  { apply Hpz. intros x Hx. destruct x; simpl in *; try discriminate; lia. }
  assert (Hact : Interleaving.active_passes st' = 0%nat).
  { apply Hpz. intros x Hx. destruct x; simpl in *; try discriminate; lia. }
  assert (Hgo : count Interleaving.sv_at_go (Interleaving.savers st') = 0%nat).
  { apply Hsz. intros x Hx. destruct x; simpl in *; try discriminate; lia. }
  assert (Hpre : count Interleaving.sv_prestore (Interleaving.savers st') = 0%nat).
  { apply Hsz. intros x Hx. destruct x; simpl in *; try discriminate; lia. }
  assert (Hpen : count Interleaving.sv_pending (Interleaving.savers st') = 0%nat).
  { apply Hsz. intros x Hx. destruct x; simpl in *; try discriminate; lia. }
  assert (Hoth : count Interleaving.sv_locked_other (Interleaving.savers st') = 0%nat).
  { apply Hsz. intros x Hx. destruct x; simpl in *; try discriminate; lia. }
  assert (Hwg : wg (Interleaving.sess st') = 0) by (rewrite I4, Hlive, Hgo; reflexivity).
  split; [exact Hs|]. split; [exact Hp|]. split; [exact Hwg|].
  unfold b2n in *.
  split; [destruct (isCleaningActive (Interleaving.sess st')); [lia|reflexivity]|].
  split; [destruct (cleaningMutex (Interleaving.sess st')); [lia|reflexivity]|].
  intros pick. unfold WaitForCompletion. rewrite Hwg. reflexivity.
Qed.

Lemma outstanding_work_can_drain_witness :
  exists acts st',
    Interleaving.run acts ex_race_end = Some st' /\
    wg (Interleaving.sess st') = 0 /\
    WaitForCompletion (Interleaving.sess st') None true = WaitReturns None.
Proof.
  destruct (outstanding_work_can_drain ex_config None (Ok ex_plenty) ex_session 2
              ex_race_end eq_refl (ex_intro _ ex_race eq_refl))
    as (acts & st' & Hrun & _ & _ & _ & Hwg & _ & _ & Hwait).
  exists acts, st'. split; [exact Hrun|]. split; [exact Hwg|apply Hwait].
Defined.

(** ** Validation, construction and draining of the S3 session *)

Lemma validACLs_lookup acl :
  default false (S3.validACLs !! acl) = true <-> acl = EmptyString \/ In acl canned_ACLs.
Proof.
  unfold S3.validACLs, canned_ACLs. simpl.
  repeat (rewrite lookup_insert; case_decide;
          [subst; simpl; split;
           [intros _; repeat first [left; reflexivity | right] | reflexivity] | ]).
  rewrite lookup_empty. simpl. split; [discriminate|].
  intros [He | Hin]; [congruence|]. repeat (destruct Hin as [He | Hin]; [congruence|]).
  destruct Hin.
Qed.

Lemma validateS3Config_None cfg :
  S3.validateS3Config cfg = None <->
  S3.Region cfg <> EmptyString /\ S3.Bucket cfg <> EmptyString /\
  (S3.ACL cfg = EmptyString \/ In (S3.ACL cfg) canned_ACLs).
Proof.
  unfold S3.validateS3Config.
  destruct (String.eqb_spec (S3.Region cfg) EmptyString) as [Hr|Hr].
  { split; [discriminate|tauto]. }
  destruct (String.eqb_spec (S3.Bucket cfg) EmptyString) as [Hb|Hb].
  { split; [discriminate|tauto]. }
  pose proof (validACLs_lookup (S3.ACL cfg)) as Hacl.
  destruct (default false (S3.validACLs !! S3.ACL cfg)); simpl.
  - split; [intros _|reflexivity].
    split; [exact Hr|]. split; [exact Hb|]. apply Hacl. reflexivity.
  - split; [discriminate|].
    intros (_ & _ & Hin). apply Hacl in Hin. discriminate.
Qed.

(** X14.  validateS3Config accepts a configuration exactly when the region
    and the bucket are not empty and the ACL is empty or one of the seven
    canned ACLs; missing credentials are not an error; every rejection is
    an ErrInvalidConfig. *)
Theorem validateS3Config_accepts_iff cfg :
  (S3.validateS3Config cfg = None <->
   S3.Region cfg <> EmptyString /\ S3.Bucket cfg <> EmptyString /\
   (S3.ACL cfg = EmptyString \/ In (S3.ACL cfg) canned_ACLs)) /\
  (forall e, S3.validateS3Config cfg = Some e -> errors_Is e InvalidConfig = true).
Proof.
  split; [apply validateS3Config_None|].
  unfold S3.validateS3Config. intros e.
  destruct (_ =? _); [intros [= <-]; reflexivity|].
  destruct (_ =? _); [intros [= <-]; reflexivity|].
  destruct (negb _); [intros [= <-]; reflexivity|discriminate].
Qed.



Lemma count_none {A : Type} (f : A -> bool) (l : list A) :
  (forall j x, l !! j = Some x -> f x = false) -> count f l = 0%nat.
Proof.
  induction l as [|z l IH]; intros Hall; simpl; [reflexivity|].
  rewrite (Hall 0%nat z eq_refl). rewrite IH; [reflexivity|].
  intros j x Hj. apply (Hall (S j) x Hj).
Qed.

Lemma upload_goroutine_exited s k io fs PutObject j :
  (j < length (S3.uploads s))%nat ->
  j = k \/ S3.uploads s !! j = Some S3.UploadExited ->
  S3.uploads (S3.upload_goroutine s k io fs PutObject) !! j = Some S3.UploadExited.
Proof.
  intros Hlen Hj. unfold S3.upload_goroutine.
  destruct (S3.uploads s !! k) as [[filePath key size|]|] eqn:Hk; simpl.
  - destruct (decide (j = k)) as [->|Hne].
    + apply list_lookup_insert_eq. exact Hlen.
    + rewrite list_lookup_insert_ne by congruence. destruct Hj; [contradiction|assumption].
  - destruct Hj as [->|Hj]; assumption.
  - destruct Hj as [->|Hj]; [|assumption].
    apply lookup_lt_is_Some in Hlen. rewrite Hk in Hlen. destruct Hlen; discriminate.
Qed.

Lemma upload_goroutine_length s k io fs PutObject :
  length (S3.uploads (S3.upload_goroutine s k io fs PutObject)) = length (S3.uploads s).
Proof.
  unfold S3.upload_goroutine.
  destruct (S3.uploads s !! k) as [[filePath key size|]|]; simpl;
    rewrite ?length_insert; reflexivity.
Qed.

Lemma run_uploads_exited ks :
  forall s j,
    (j < length (S3.uploads s))%nat ->
    In j (map upload_index ks) \/ S3.uploads s !! j = Some S3.UploadExited ->
    S3.uploads (S3.run_uploads s ks) !! j = Some S3.UploadExited.
Proof.
  induction ks as [|[[[k io] fs] PutObject] ks IH]; intros s j Hlen Hj; simpl.
  - destruct Hj as [[]|Hj]. exact Hj.
  - apply IH; [rewrite upload_goroutine_length; exact Hlen|].
    simpl in Hj. unfold upload_index in Hj at 1. simpl in Hj.
    destruct Hj as [[Hjk|Hin]|Hex].
    + right. apply upload_goroutine_exited; [exact Hlen|left; congruence].
    + left. exact Hin.
    + right. apply upload_goroutine_exited; [exact Hlen|right; exact Hex].
Qed.

Lemma run_uploads_length ks :
  forall s, length (S3.uploads (S3.run_uploads s ks)) = length (S3.uploads s).
Proof.
  induction ks as [|[[[k io] fs] PutObject] ks IH]; intros s; simpl; [reflexivity|].
  rewrite IH. apply upload_goroutine_length.
Qed.

(** X16.  On an S3 session whose counter agrees with its outstanding
    uploads, once every started upload goroutine has run, in any order,
    any number of times in the schedule, and whatever the S3 client
    answered, no upload is outstanding, the counter is zero and
    WaitForCompletion with a live context returns nil. *)
Theorem s3_uploads_drain s ks pick :
  s3_consistent s ->
  (forall j, (j < length (S3.uploads s))%nat -> In j (map upload_index ks)) ->
  s3_outstanding (S3.run_uploads s ks) = 0%nat /\
  S3.wg (S3.run_uploads s ks) = 0 /\
  S3.WaitForCompletion (S3.run_uploads s ks) None pick = WaitReturns None.
Proof.
  intros Hcons Hall.
  assert (Hout : s3_outstanding (S3.run_uploads s ks) = 0%nat).
  { unfold s3_outstanding. apply count_none. intros j x Hj.
    assert (Hlen : (j < length (S3.uploads s))%nat).
    { rewrite <- (run_uploads_length ks s). eapply lookup_lt_Some; eauto. }
    rewrite (run_uploads_exited ks s j Hlen (or_introl (Hall j Hlen))) in Hj.
    injection Hj as <-. reflexivity. }
  pose proof (run_uploads_consistent ks s Hcons) as Hc. unfold s3_consistent in Hc.
  split; [exact Hout|]. split; [rewrite Hc, Hout; reflexivity|].
  unfold S3.WaitForCompletion. rewrite Hc, Hout. reflexivity.
Qed.

Lemma s3_uploads_drain_witness :
  S3.WaitForCompletion ex_s3_two_uploads None true = WaitBlocks /\
  S3.WaitForCompletion
    (S3.run_uploads ex_s3_two_uploads
       [(1%nat, ex_io, ex_fs, ex_PutObject_fails); (0%nat, ex_io, ex_fs, ex_PutObject_ok)])
    None true = WaitReturns None.
Proof.
  split; [reflexivity|].
  apply (s3_uploads_drain ex_s3_two_uploads
           [(1%nat, ex_io, ex_fs, ex_PutObject_fails); (0%nat, ex_io, ex_fs, ex_PutObject_ok)]
           true).
  - reflexivity.
  - intros j Hj. simpl in Hj. simpl.
    destruct j as [|[|j]]; [right; left; reflexivity|left; reflexivity|lia].
Defined.

(** ** Waiting with a finished context, closing, and a disk of size zero *)

(** X17.  With a context that is already done, WaitForCompletion never
    blocks, on either session.  While work is outstanding it returns the
    timeout error: on the local session an ErrCleaningTimeout; on the S3
    session "upload timeout" wrapping the context's own error, which is an
    ErrCleaningTimeout only if the context's error is one. *)
Theorem WaitForCompletion_cancelled s s3 cerr pick :
  WaitForCompletion s (Some cerr) pick <> WaitBlocks /\
  S3.WaitForCompletion s3 (Some cerr) pick <> WaitBlocks /\
  (wg s <> 0 ->
   exists e, WaitForCompletion s (Some cerr) pick = WaitReturns (Some e) /\
             errors_Is e CleaningTimeout = true) /\
  (S3.wg s3 <> 0 ->
   exists e, S3.WaitForCompletion s3 (Some cerr) pick = WaitReturns (Some e) /\
             errors_Is e CleaningTimeout = errors_Is cerr CleaningTimeout /\
             error_root e = error_root cerr).
Proof.
  unfold WaitForCompletion, S3.WaitForCompletion. repeat split.
  - destruct (wg s =? 0)%Z, pick; discriminate.
  - destruct (S3.wg s3 =? 0)%Z, pick; discriminate.
  - intros Hne. destruct (Z.eqb_spec (wg s) 0); [contradiction|].
    eexists. split; reflexivity.
  - intros Hne. destruct (Z.eqb_spec (S3.wg s3) 0); [contradiction|].
    eexists. split; [reflexivity|]. split; reflexivity.
Qed.

Lemma checkAndCleanIfNeeded_cleaningDone s probe c :
  checkAndCleanIfNeeded (with_cleaningDone s c) probe
  = with_cleaningDone (checkAndCleanIfNeeded s probe) c.
Proof.
  unfold checkAndCleanIfNeeded. destruct s as [cf a m f d w p]; simpl.
  destruct f; simpl; [reflexivity|].
  destruct probe as [du|e]; [|reflexivity].
  destruct (Free du <? FreeSpaceThreshold cf)%Z; reflexivity.
Qed.

(** X18.  Close only closes the channel: it neither waits for the
    outstanding work nor disables the session.  After Close,
    WaitForCompletion behaves as before, and a Save does exactly what it
    would have done before the Close, capacity check and dispatch
    included. *)
Theorem Save_after_Close `{Filepath} s io probe fs src rel :
  cleaningDone s = ChanOpen ->
  exists s1,
    Close s = Returns (None, s1) /\
    Save s1 io probe fs src rel
    = (let '(e, s', fs') := Save s io probe fs src rel in
       (e, with_cleaningDone s' ChanClosed, fs')) /\
    (forall ctx pick, WaitForCompletion s1 ctx pick = WaitForCompletion s ctx pick).
Proof.
  intros Hopen. exists (with_cleaningDone s ChanClosed).
  split; [unfold Close; rewrite Hopen; reflexivity|]. split; [|reflexivity].
  unfold Save.
  destruct ((src =? EmptyString) || (rel =? EmptyString)); [reflexivity|].
  destruct (os_Stat _ _ _) as [srcInfo|]; [|reflexivity].
  destruct (negb _); [reflexivity|].
  destruct (mkdirall_fault io); [reflexivity|].
  replace (RootDir (config (with_cleaningDone s ChanClosed))) with (RootDir (config s))
    by reflexivity.
  destruct (copyFile _ _ _ _) as [[err|] fs1]; [reflexivity|].
  cbv zeta.
  replace (atomic_AddInt64_accumulatedSize (with_cleaningDone s ChanClosed) (Size srcInfo))
    with (with_cleaningDone (atomic_AddInt64_accumulatedSize s (Size srcInfo)) ChanClosed)
    by reflexivity.
  rewrite checkAndCleanIfNeeded_cleaningDone.
  replace (accumulatedSize
             (with_cleaningDone (atomic_AddInt64_accumulatedSize s (Size srcInfo)) ChanClosed))
    with (accumulatedSize (atomic_AddInt64_accumulatedSize s (Size srcInfo))) by reflexivity.
  replace (config
             (with_cleaningDone (atomic_AddInt64_accumulatedSize s (Size srcInfo)) ChanClosed))
    with (config (atomic_AddInt64_accumulatedSize s (Size srcInfo))) by reflexivity.
  destruct (_ >=? _)%Z; reflexivity.
Qed.

Lemma Save_after_Close_witness :
  exists s1 s' fs',
    Close ex_session_eager_check = Returns (None, s1) /\
    @Save ex_filepath s1 ex_io (Ok ex_starved) ex_fs "/data/a.dat" "daily/a.dat"
      = (None, s', fs') /\
    passes s' = [PcProbe] /\ cleaningDone s' = ChanClosed.
Proof.
  destruct (@Save_after_Close ex_filepath ex_session_eager_check ex_io (Ok ex_starved) ex_fs
              "/data/a.dat" "daily/a.dat" eq_refl) as (s1 & Hclose & Hsave & _).
  destruct (@Save ex_filepath ex_session_eager_check ex_io (Ok ex_starved) ex_fs
              "/data/a.dat" "daily/a.dat") as [[[e|] s'] fs'] eqn:Hs.
  - exfalso. vm_compute in Hs. discriminate Hs.
  - exists s1, (with_cleaningDone s' ChanClosed), fs'.
    split; [exact Hclose|]. split; [exact Hsave|].
    vm_compute in Hs. injection Hs as <- _. split; reflexivity.
Defined.

(** X19.  When the probe of a cleanup pass reports a total capacity of
    zero and the caller gave no maximum usage percent, the percentage
    handed to the engine is 0/0 * 100, a NaN: the division of line 228 is
    not guarded. *)
Theorem zero_capacity_percent_is_nan s diskInfo CleanBackup :
  Total diskInfo = 0 -> 0 <= TargetFreeSpace (config s) ->
  MaxUsagePercent (CleaningConfig_ (config s)) = None ->
  exists cleaningConfig r,
    (performCleaning s (Ok diskInfo) CleanBackup).2 = Some (cleaningConfig, r) /\
    MaxUsagePercent cleaningConfig = Some S754_nan.
Proof.
  intros Ht Htarget Hnone. unfold performCleaning.
  assert (Hcfg : MaxUsagePercent (engineConfig s diskInfo) = Some S754_nan).
  { unfold engineConfig. rewrite Hnone. simpl.
    unfold targetUsagePercent, targetUsedSpace. rewrite Ht.
    destruct (Z.ltb_spec (TargetFreeSpace (config s)) 0); [lia|]. reflexivity. }
  destruct (CleanBackup _ _); eexists _, _; (split; [reflexivity|exact Hcfg]).
Qed.

Lemma zero_capacity_percent_is_nan_witness :
  exists cleaningConfig r,
    (performCleaning ex_session_eager (Ok ex_disk_zero)
       (fun _ _ => Ok (mkCleaningReport 0))).2 = Some (cleaningConfig, r) /\
    MaxUsagePercent cleaningConfig = Some S754_nan.
Proof.
  apply (zero_capacity_percent_is_nan ex_session_eager ex_disk_zero
           (fun _ _ => Ok (mkCleaningReport 0))).
  - reflexivity.
  - vm_compute. congruence.
  - reflexivity.
Defined.

(** X20.  The counter of an S3 session always agrees with its outstanding
    uploads: a session from the constructor starts that way, and every
    Save and every upload goroutine keeps it so.  A Save that returns an
    error leaves the session as it found it; a Save that returns nil has
    added exactly one outstanding upload. *)
Theorem s3_counter_invariant `{Filepath} s io fs src rel k io' fs' PutObject :
  s3_consistent s ->
  s3_consistent (S3.Save s io fs src rel).2 /\
  ((S3.Save s io fs src rel).1 <> None -> (S3.Save s io fs src rel).2 = s) /\
  ((S3.Save s io fs src rel).1 = None ->
   s3_outstanding (S3.Save s io fs src rel).2 = S (s3_outstanding s)) /\
  s3_consistent (S3.upload_goroutine s k io' fs' PutObject) /\
  (forall cfg newSession headBucket s0,
     S3.NewS3BackupSession cfg newSession headBucket = Ok s0 -> s3_consistent s0).
Proof.
  intros Hcons.
  assert (Hsave : s3_consistent (S3.Save s io fs src rel).2 /\
                  ((S3.Save s io fs src rel).1 <> None -> (S3.Save s io fs src rel).2 = s) /\
                  ((S3.Save s io fs src rel).1 = None ->
                   s3_outstanding (S3.Save s io fs src rel).2 = S (s3_outstanding s))).
  { unfold S3.Save.
    destruct ((src =? EmptyString) || (rel =? EmptyString));
      [simpl; split; [exact Hcons|split; [reflexivity|discriminate]]|].
    destruct (os_Stat _ _ _) as [fileInfo|];
      [|simpl; split; [exact Hcons|split; [reflexivity|discriminate]]].
    destruct (negb _);
      [simpl; split; [exact Hcons|split; [reflexivity|discriminate]]|].
    simpl.
    assert (Hout : s3_outstanding
                     (S3.mkS3Session (S3.config s) (S3.wg s + 1)
                        (S3.uploads s ++
                         [S3.UploadPending src
                            (filepath_ToSlash (filepath_Join (S3.Prefix (S3.config s)) rel))
                            (Size fileInfo)]))
                   = S (s3_outstanding s)).
    { unfold s3_outstanding. simpl. rewrite count_app. simpl. lia. }
    split; [|split; [intros Hne; contradiction Hne; reflexivity|intros _; exact Hout]].
    unfold s3_consistent. rewrite Hout. simpl. rewrite Hcons. lia. }
  destruct Hsave as (H1 & H2 & H3).
  split; [exact H1|]. split; [exact H2|]. split; [exact H3|].
  split; [apply upload_goroutine_consistent; exact Hcons|].
  intros cfg newSession headBucket s0 Hnew. unfold S3.NewS3BackupSession in Hnew.
  destruct (S3.validateS3Config cfg); [discriminate|].
  destruct newSession; [discriminate|]. destruct headBucket; [discriminate|].
  injection Hnew as <-. reflexivity.
Qed.

Lemma s3_counter_invariant_witness :
  s3_consistent ex_s3_two_uploads /\
  s3_consistent (@S3.Save ex_filepath ex_s3_two_uploads ex_io ex_fs "/data/a.dat" "c.dat").2 /\
  s3_consistent (S3.upload_goroutine ex_s3_two_uploads 1 ex_io ex_fs ex_PutObject_fails).
Proof.
  assert (Hc : s3_consistent ex_s3_two_uploads) by reflexivity.
  split; [exact Hc|].
  destruct (@s3_counter_invariant ex_filepath ex_s3_two_uploads ex_io ex_fs
              "/data/a.dat" "c.dat" 1%nat ex_io ex_fs ex_PutObject_fails Hc)
    as (H1 & _ & _ & H4 & _).
  split; assumption.
Defined.
